(* ===================================================================== *)
(* src/utils/embeddings.py: the embeddings generator, as a shallow        *)
(* embedding.                                                             *)
(*                                                                        *)
(* The script is a command line driver around a sentence-embedding        *)
(* library.  Its own code is control flow: an import guard, an argument   *)
(* parser, two file operations, three library calls, two isinstance       *)
(* tests and two exception handlers.  The embedding below keeps that      *)
(* control flow as it is written and runs it in a small monad of          *)
(* world-passing computations that can return, raise or exit.             *)
(*                                                                        *)
(* What the Python runtime and the wrapped libraries contribute is        *)
(* either modelled concretely (the file system, argparse, json.dump's     *)
(* chunked writing, the tensor conversions) or taken as a parameter of    *)
(* the development (class Platform: the pretrained models, the UTF-8      *)
(* codec, float formatting, repr of a string, argparse's help layout).    *)
(* ===================================================================== *)

From stdpp Require Import gmap strings list.
From Stdlib Require Import ZArith Ascii String DecimalString.

Local Open Scope string_scope.
Local Open Scope Z_scope.
Local Open Scope list_scope.

(* --------------------------------------------------------------------- *)
(* Strings                                                                *)
(* --------------------------------------------------------------------- *)

(** The double quote character, as a one-character string. *)
Definition dquote : string := String (ascii_of_nat 34) EmptyString.

(** [sep.join(parts)] *)
Fixpoint join (sep : string) (parts : list string) : string :=
  match parts with
  | [] => ""
  | [p] => p
  | p :: rest => p +:+ sep +:+ join sep rest
  end.

(** [''.join(parts)] *)
Definition concat_all (parts : list string) : string :=
  foldr String.append "" parts.

(** [s.startswith(p)] *)
Definition startswith (p s : string) : bool := String.prefix p s.

(** [s.split('=', 1)] when ['=' in s]: the parts before and after the
    first equals sign. *)
Fixpoint split_eq (s : string) : option (string * string) :=
  match s with
  | EmptyString => None
  | String c rest =>
      if Ascii.eqb c "=" then Some ("", rest)
      else match split_eq rest with
           | Some (a, b) => Some (String c a, b)
           | None => None
           end
  end.

(** [' ' in s] *)
Fixpoint has_space (s : string) : bool :=
  match s with
  | EmptyString => false
  | String c rest => Ascii.eqb c " " || has_space rest
  end.

Definition is_digit (c : ascii) : bool :=
  let n := nat_of_ascii c in (48 <=? n)%nat && (n <=? 57)%nat.

Fixpoint all_digits (s : string) : bool :=
  match s with
  | EmptyString => true
  | String c rest => is_digit c && all_digits rest
  end.

(** Drops the leading digits of [s]. *)
Fixpoint drop_digits (s : string) : string :=
  match s with
  | EmptyString => EmptyString
  | String c rest => if is_digit c then drop_digits rest else s
  end.

(* --------------------------------------------------------------------- *)
(* Exceptions                                                             *)
(* --------------------------------------------------------------------- *)

Inductive errno := ENOENT | EACCES | EISDIR.

(** Instances of [Exception].  [SystemExit] is not one of them (it derives
    from [BaseException]); it is the [Exit] outcome of the monad below. *)
Inductive exn :=
| OSError (code : errno) (filename : string)
| UnicodeDecodeError (msg : string)
| ImportError (msg : string)
| TypeError (msg : string)
| RuntimeError (msg : string)
| LibraryError (msg : string).

Definition errno_number (c : errno) : string :=
  match c with ENOENT => "2" | EACCES => "13" | EISDIR => "21" end.

Definition strerror (c : errno) : string :=
  match c with
  | ENOENT => "No such file or directory"
  | EACCES => "Permission denied"
  | EISDIR => "Is a directory"
  end.

Definition is_ImportError (e : exn) : bool :=
  match e with ImportError _ => true | _ => false end.

(** [except Exception]: every member of [exn]. *)
Definition is_Exception (e : exn) : bool := true.

(* --------------------------------------------------------------------- *)
(* Values the model library hands back                                    *)
(* --------------------------------------------------------------------- *)

Inductive dtype := float32 | float64 | float16 | bfloat16.
Inductive device := cpu_device | cuda_device.

(** A one-dimensional [torch.Tensor]. *)
Record tensor (F : Type) := mkTensor {
  t_dtype : dtype;
  t_device : device;
  t_requires_grad : bool;
  t_values : list F
}.
Arguments mkTensor {F}.
Arguments t_dtype {F}.
Arguments t_device {F}.
Arguments t_requires_grad {F}.
Arguments t_values {F}.

(** An element of a Python sequence: a Python [float], or a numpy scalar
    such as [numpy.float32], which is not a Python [float]. *)
Inductive scalar (F : Type) :=
| PyFloat (x : F)
| NpFloat32 (x : F).
Arguments PyFloat {F}.
Arguments NpFloat32 {F}.

(** The numeric containers: a tensor, a one-dimensional [numpy.ndarray],
    a [list] and a [tuple]. *)
Inductive pyobj (F : Type) :=
| Tensor (t : tensor F)
| Ndarray (a : list F)
| PyList (l : list (scalar F))
| PyTuple (l : list (scalar F)).
Arguments Tensor {F}.
Arguments Ndarray {F}.
Arguments PyList {F}.
Arguments PyTuple {F}.

(* --------------------------------------------------------------------- *)
(* The platform: what the script calls and does not define                *)
(* --------------------------------------------------------------------- *)

Class Platform := {
  (** Python floats. *)
  F : Type;
  (** Python [str] values read from a file. *)
  Text : Type;
  (** A loaded [SentenceTransformer]. *)
  Model : Type;
  (** [SentenceTransformer(model_name)] *)
  SentenceTransformer : string → exn + Model;
  (** [model.encode(text, normalize_embeddings=b)] *)
  encode : Model → Text → bool → exn + pyobj F;
  (** Decoding of a file's bytes by a text-mode read with
      [encoding="utf-8"]; on failure, the codec's message. *)
  utf8_decode : string → string + Text;
  (** json's rendering of a float ([float.__repr__], and the spellings
      NaN, Infinity and -Infinity). *)
  floatstr : F → string;
  (** [repr] of a [str]. *)
  repr_str : string → string;
  (** [sys.argv[0]], as argparse shows it. *)
  prog : string;
  (** argparse's usage line and help page for the parser of [main]. *)
  format_usage : string;
  format_help : string
}.

(** [str(e)] *)
Definition str `{Platform} (e : exn) : string :=
  match e with
  | OSError c filename =>
      "[Errno " +:+ errno_number c +:+ "] " +:+ strerror c +:+ ": "
        +:+ repr_str filename
  | UnicodeDecodeError msg | ImportError msg | TypeError msg
  | RuntimeError msg | LibraryError msg => msg
  end.

(* --------------------------------------------------------------------- *)
(* torch and numpy conversions                                            *)
(* --------------------------------------------------------------------- *)

Section Conversions.
Context {F : Type}.

(** [t.cpu()] *)
Definition cpu (t : tensor F) : tensor F :=
  mkTensor (t_dtype t) cpu_device (t_requires_grad t) (t_values t).

(** [t.detach()] *)
Definition detach (t : tensor F) : tensor F :=
  mkTensor (t_dtype t) (t_device t) false (t_values t).

(** [t.numpy()]: refused for a tensor on an accelerator, for one that
    requires grad, and for bfloat16, which numpy has no dtype for. *)
Definition numpy (t : tensor F) : exn + list F :=
  match t_device t with
  | cuda_device =>
      inl (TypeError "can't convert cuda:0 device type tensor to numpy. Use Tensor.cpu() to copy the tensor to host memory first.")
  | cpu_device =>
      if t_requires_grad t then
        inl (RuntimeError "Can't call numpy() on Tensor that requires grad. Use tensor.detach().numpy() instead.")
      else
        match t_dtype t with
        | bfloat16 => inl (TypeError "Got unsupported ScalarType BFloat16")
        | _ => inr (t_values t)
        end
  end.

(** [a.tolist()]: the elements as Python floats. *)
Definition tolist (a : list F) : pyobj F := PyList (map PyFloat a).


End Conversions.

(* --------------------------------------------------------------------- *)
(* The world: files, the two output streams, and a log of external calls  *)
(* --------------------------------------------------------------------- *)

(** What a path names.  A path that is not a key of the file system names
    nothing, and a file can be created there.  Under [NoEntry why] nothing
    exists either, and nothing can be created: [why] is the error that
    creating meets (ENOENT for a missing parent directory, EACCES for a
    directory that refuses it). *)
Inductive entry :=
| RegularFile (readable writable : bool) (data : string)
| Directory
| NoEntry (why : errno).

Inductive open_mode := ModeR | ModeW.

Section World.
Context `{Platform}.

Inductive event :=
| EvImport (package : string)
| EvOpen (path : string) (mode : open_mode)
| EvRead (path : string)
| EvWrite (path : string) (chunk : string)
| EvLoadModel (model_name : string)
| EvEncode (text : Text) (normalize_embeddings : bool).

Record World := mkWorld {
  packages : gset string;        (* importable packages *)
  fs : gmap string entry;
  stdout : list string;          (* lines printed, oldest first *)
  stderr : list string;
  trace : list event             (* external calls, oldest first *)
}.

Definition log (ev : event) (w : World) : World :=
  mkWorld (packages w) (fs w) (stdout w) (stderr w) (trace w ++ [ev]).

Definition set_fs (m : gmap string entry) (w : World) : World :=
  mkWorld (packages w) m (stdout w) (stderr w) (trace w).

(* ------------------------------------------------------------------- *)
(* Computations                                                         *)
(* ------------------------------------------------------------------- *)

Inductive outcome (A : Type) :=
| Return (a : A)
| Raise (e : exn)
| Exit (code : Z).      (* SystemExit(code) *)
Global Arguments Return {A}.
Global Arguments Raise {A}.
Global Arguments Exit {A}.

Definition M (A : Type) : Type := World → outcome A * World.

Definition ret {A} (a : A) : M A := λ w, (Return a, w).

Definition bind {A B} (m : M A) (k : A → M B) : M B :=
  λ w, match m w with
       | (Return a, w') => k a w'
       | (Raise e, w') => (Raise e, w')
       | (Exit c, w') => (Exit c, w')
       end.

Definition raise {A} (e : exn) : M A := λ w, (Raise e, w).

(** [sys.exit(code)] *)
Definition sys_exit {A} (code : Z) : M A := λ w, (Exit code, w).

(** A library call that returns or raises. *)
Definition lift {A} (r : exn + A) : M A :=
  match r with inl e => raise e | inr a => ret a end.

(** [try: body  except <class> as e: handler e].  An exception outside
    the class, and SystemExit, pass through. *)
Definition try_except {A} (class : exn → bool) (body : M A)
    (handler : exn → M A) : M A :=
  λ w, match body w with
       | (Raise e, w') => if class e then handler e w' else (Raise e, w')
       | r => r
       end.
End World.

Global Instance M_ret `{Platform} : MRet M := @ret _.
Global Instance M_bind `{Platform} : MBind M := λ A B k m, bind m k.

(** An open file: its path.  The mode is fixed where it is opened. *)
Abbreviation file := string (only parsing).

Section Primitives.
Context `{Platform}.

Definition to_stdout (line : string) (w : World) : World :=
  mkWorld (packages w) (fs w) (stdout w ++ [line]) (stderr w) (trace w).

Definition to_stderr (line : string) (w : World) : World :=
  mkWorld (packages w) (fs w) (stdout w) (stderr w ++ [line]) (trace w).

(** [print(line)] *)
Definition print (line : string) : M unit := λ w, (Return (), to_stdout line w).

(** [print(line, file=sys.stderr)] *)
Definition print_err (line : string) : M unit := λ w, (Return (), to_stderr line w).

(** [import package] *)
Definition import (package : string) : M unit :=
  λ w, let w' := log (EvImport package) w in
       if decide (package ∈ packages w) then (Return (), w')
       else (Raise (ImportError ("No module named '" +:+ package +:+ "'")), w').

(** [open(path, "r", encoding="utf-8")] *)
Definition open_r (path : string) : M file :=
  λ w, let w' := log (EvOpen path ModeR) w in
       match fs w !! path with
       | Some (RegularFile true _ _) => (Return path, w')
       | Some (RegularFile false _ _) => (Raise (OSError EACCES path), w')
       | Some Directory => (Raise (OSError EISDIR path), w')
       | Some (NoEntry _) | None => (Raise (OSError ENOENT path), w')
       end.

(** [open(path, "w", encoding="utf-8")]: creates the file, or empties
    the one that is there. *)
Definition open_w (path : string) : M file :=
  λ w, let w' := log (EvOpen path ModeW) w in
       match fs w !! path with
       | None =>
           (Return path, set_fs (<[path := RegularFile true true ""]> (fs w)) w')
       | Some (RegularFile r true _) =>
           (Return path, set_fs (<[path := RegularFile r true ""]> (fs w)) w')
       | Some (RegularFile _ false _) => (Raise (OSError EACCES path), w')
       | Some Directory => (Raise (OSError EISDIR path), w')
       | Some (NoEntry why) => (Raise (OSError why path), w')
       end.

(** [f.read()] on a file opened by [open_r]. *)
Definition f_read (f : file) : M Text :=
  λ w, let w' := log (EvRead f) w in
       match fs w !! f with
       | Some (RegularFile _ _ data) =>
           match utf8_decode data with
           | inr text => (Return text, w')
           | inl msg => (Raise (UnicodeDecodeError msg), w')
           end
       | _ => (Raise (OSError ENOENT f), w')
       end.

Definition append_data (chunk : string) (e : entry) : entry :=
  match e with
  | RegularFile r wr data => RegularFile r wr (data +:+ chunk)
  | _ => e
  end.

(** [f.write(chunk)] on a file opened by [open_w]. *)
Definition f_write (f : file) (chunk : string) : M unit :=
  λ w, (Return (),
        set_fs (alter (append_data chunk) f (fs w)) (log (EvWrite f chunk) w)).

(** [SentenceTransformer(model_name)] *)
Definition load_model (model_name : string) : M Model :=
  λ w, lift (SentenceTransformer model_name) (log (EvLoadModel model_name) w).

(** [model.encode(text, normalize_embeddings=b)] *)
Definition model_encode (model : Model) (text : Text) (b : bool) : M (pyobj F) :=
  λ w, lift (encode model text b) (log (EvEncode text b) w).
End Primitives.


(* --------------------------------------------------------------------- *)
(* json.dump                                                              *)
(* --------------------------------------------------------------------- *)

Section Json.
Context `{Platform}.

(** What the encoder's generator yields: the chunks it produced, and the
    exception that ended it, if one did. *)
Definition chunks : Type := list string * option exn.

Definition not_serializable (class_name : string) : exn :=
  TypeError ("Object of type " +:+ class_name +:+ " is not JSON serializable").

(** The loop of the list encoder: [buf] is the opening bracket before the
    first element and the item separator before the others. *)
Fixpoint iterencode_items (buf : string) (l : list (scalar F)) : chunks :=
  match l with
  | [] => (["]"], None)
  | PyFloat x :: rest =>
      let '(cs, e) := iterencode_items ", " rest in
      ((buf +:+ floatstr x) :: cs, e)
  | NpFloat32 _ :: _ => ([buf], Some (not_serializable "float32"))
  end.

Definition iterencode_list (l : list (scalar F)) : chunks :=
  match l with
  | [] => (["[]"], None)
  | _ => iterencode_items "[" l
  end.

Definition iterencode (o : pyobj F) : chunks :=
  match o with
  | PyList l | PyTuple l => iterencode_list l
  | Tensor _ => ([], Some (not_serializable "Tensor"))
  | Ndarray _ => ([], Some (not_serializable "ndarray"))
  end.

(** The encoder on the one-entry dict [{key: value}], for a key that
    needs no escaping. *)
Definition iterencode_dict (key : string) (value : pyobj F) : chunks :=
  let '(cs, e) := iterencode value in
  (["{"; dquote +:+ key +:+ dquote; ": "] ++ cs
     ++ match e with None => ["}"] | Some _ => [] end, e).

Fixpoint write_all (f : file) (cs : list string) : M unit :=
  match cs with
  | [] => mret ()
  | c :: rest => f_write f c ;; write_all f rest
  end.

(** [json.dump({key: value}, f)]: every chunk is written as it is
    produced, so the chunks before an error are in the file. *)
Definition json_dump (key : string) (value : pyobj F) (f : file) : M unit :=
  let '(cs, e) := iterencode_dict key value in
  write_all f cs ;;
  match e with
  | None => mret ()
  | Some e => raise e
  end.

End Json.

(* --------------------------------------------------------------------- *)
(* argparse, for the parser that main builds                              *)
(* --------------------------------------------------------------------- *)

Inductive action := Help | StoreInput | StoreOutput | StoreModel.

(** The parser's option strings, in registration order: the help option
    that every parser has, then the three of [add_argument]. *)
Definition option_string_actions : list (string * action) :=
  [("-h", Help); ("--help", Help); ("--input", StoreInput);
   ("--output", StoreOutput); ("--model", StoreModel)].

Definition lookup_option (s : string) : option action :=
  snd <$> List.find (λ p, String.eqb (fst p) s) option_string_actions.

(** Name of an argument in error messages. *)
Definition argument_name (a : action) : string :=
  match a with
  | Help => "-h/--help"
  | StoreInput => "--input"
  | StoreOutput => "--output"
  | StoreModel => "--model"
  end.

Inductive token :=
| TPositional (s : string)
| TOption (a : action) (option_string : string) (explicit_arg : option string)
| TUnknown (s : string)
| TSeparator
| TAmbiguous (s : string) (candidates : list string).

(** [s] without one trailing newline, which the dollar of a pattern
    allows. *)
Definition chomp (s : string) : string :=
  match String.length s with
  | O => s
  | S n => if String.eqb (String.substring n 1 s) (String (ascii_of_nat 10) "")
           then String.substring 0 n s else s
  end.

(** The parser's pattern for a negative number: a minus sign, then
    digits, or then digits (or none), a dot and digits. *)
Definition negative_number (s : string) : bool :=
  match chomp s with
  | String "-" r =>
      (negb (String.eqb r "") && all_digits r)
      || match drop_digits r with
         | String "." r2 => negb (String.eqb r2 "") && all_digits r2
         | _ => false
         end
  | _ => false
  end.

(** Option strings that an abbreviated long option can stand for. *)
Definition abbreviation_matches (option_prefix : string) : list (string * action) :=
  List.filter (λ p, startswith option_prefix (fst p)) option_string_actions.

(** How the parser reads one command line word other than [--]. *)
Definition parse_optional (s : string) : token :=
  match s with
  | EmptyString => TPositional s
  | String c rest =>
      if negb (Ascii.eqb c "-") then TPositional s
      else match lookup_option s with
      | Some a => TOption a s None
      | None =>
      if String.eqb rest "" then TPositional s
      else
        let by_equals :=
          match split_eq s with
          | Some (os, ea) =>
              match lookup_option os with
              | Some a => Some (TOption a os (Some ea))
              | None => None
              end
          | None => None
          end in
        match by_equals with
        | Some t => t
        | None =>
            let tuples :=
              if startswith "--" s then
                let '(option_prefix, explicit_arg) :=
                  match split_eq s with
                  | Some (p, ea) => (p, Some ea)
                  | None => (s, None)
                  end in
                map (λ p, TOption (snd p) (fst p) explicit_arg)
                    (abbreviation_matches option_prefix)
              else
                if String.eqb (String.substring 0 2 s) "-h"
                then [TOption Help "-h"
                        (Some (String.substring 2 (String.length s - 2) s))]
                else [] in
            match tuples with
            | [t] => t
            | _ :: _ :: _ =>
                TAmbiguous s (map fst (abbreviation_matches
                                (match split_eq s with
                                 | Some (p, _) => p
                                 | None => s
                                 end)))
            | [] =>
                if negative_number s then TPositional s
                else if has_space s then TPositional s
                else TUnknown s
            end
        end
      end
  end.

(** The first pass over the command line: after a bare [--] every word is
    positional. *)
Fixpoint classify (argv : list string) : list token :=
  match argv with
  | [] => []
  | s :: rest =>
      if String.eqb s "--" then TSeparator :: map TPositional rest
      else parse_optional s :: classify rest
  end.

(** [args]: the namespace that [parse_args] returns. *)
Record Namespace := mkNamespace {
  input : string;
  output : string;
  model : string
}.

(** The namespace under construction: the required options are unset
    until seen, [--model] starts at its default. *)
Record partial_namespace := mkPartial {
  p_input : option string;
  p_output : option string;
  p_model : string
}.

Definition default_model : string := "jinaai/jina-embeddings-v3".

Definition initial_namespace : partial_namespace :=
  mkPartial None None default_model.

Definition store (a : action) (v : string) (ns : partial_namespace)
  : partial_namespace :=
  match a with
  | StoreInput => mkPartial (Some v) (p_output ns) (p_model ns)
  | StoreOutput => mkPartial (p_input ns) (Some v) (p_model ns)
  | StoreModel => mkPartial (p_input ns) (p_output ns) v
  | Help => ns
  end.

Inductive parse_result :=
| Parsed (args : Namespace)
| HelpRequested
| UsageError (message : string).

(** [-h] followed by more letters is read as a run of one-letter flags:
    it is the help flag again when every letter is [h]; otherwise the
    letters from the first other one on are an argument that the flag
    does not take. *)
Fixpoint short_help_flags (explicit_arg : string) : option string :=
  match explicit_arg with
  | EmptyString => None
  | String c rest =>
      if Ascii.eqb c "h" then short_help_flags rest else Some explicit_arg
  end.

Section Argparse.
Context `{Platform}.

Definition ignored_explicit (a : action) (explicit_arg : string) : parse_result :=
  UsageError ("argument " +:+ argument_name a +:+ ": ignored explicit argument "
              +:+ repr_str explicit_arg).

Definition expected_one (a : action) : parse_result :=
  UsageError ("argument " +:+ argument_name a +:+ ": expected one argument").

(** The checks after the last word: required options first, then the
    words that nothing consumed. *)
Definition finish (ns : partial_namespace) (extras : list string) : parse_result :=
  match p_input ns, p_output ns with
  | Some i, Some o =>
      match extras with
      | [] => Parsed (mkNamespace i o (p_model ns))
      | _ => UsageError ("unrecognized arguments: " +:+ join " " extras)
      end
  | None, Some _ =>
      UsageError "the following arguments are required: --input"
  | Some _, None =>
      UsageError "the following arguments are required: --output"
  | None, None =>
      UsageError "the following arguments are required: --input, --output"
  end.

(** The second pass, left to right.  An option without [=value] takes the
    next word when that word is positional, stepping over the [--] before
    or after it. *)
Fixpoint consume (ns : partial_namespace) (extras : list string)
    (toks : list token) : parse_result :=
  match toks with
  | [] => finish ns extras
  | TPositional s :: rest => consume ns (extras ++ [s]) rest
  | TUnknown s :: rest => consume ns (extras ++ [s]) rest
  | TSeparator :: rest => consume ns (extras ++ ["--"]) rest
  | TAmbiguous s _ :: rest => consume ns (extras ++ [s]) rest
  | TOption Help os None :: _ => HelpRequested
  | TOption Help os (Some ea) :: _ =>
      if String.eqb os "-h" then
        match short_help_flags ea with
        | None => HelpRequested
        | Some bad => ignored_explicit Help bad
        end
      else ignored_explicit Help ea
  | TOption a os (Some ea) :: rest => consume (store a ea ns) extras rest
  | TOption a os None :: rest =>
      match rest with
      | TSeparator :: TPositional v :: rest' => consume (store a v ns) extras rest'
      | TPositional v :: TSeparator :: rest' => consume (store a v ns) extras rest'
      | TPositional v :: rest' => consume (store a v ns) extras rest'
      | _ => expected_one a
      end
  end.

Definition ambiguous (toks : list token) : option parse_result :=
  match List.find (λ t, match t with TAmbiguous _ _ => true | _ => false end) toks with
  | Some (TAmbiguous s candidates) =>
      Some (UsageError ("ambiguous option: " +:+ s +:+ " could match "
                        +:+ join ", " candidates))
  | _ => None
  end.

(** The parser as a function of the command line. *)
Definition parse (argv : list string) : parse_result :=
  let toks := classify argv in
  match ambiguous toks with
  | Some err => err
  | None => consume initial_namespace [] toks
  end.

(** [parser.parse_args()]: the namespace, or the help page on standard
    output and exit status 0, or the usage and an error on the error
    stream and exit status 2. *)
Definition parse_args (argv : list string) : M Namespace :=
  match parse argv with
  | Parsed args => mret args
  | HelpRequested => print format_help ;; sys_exit 0
  | UsageError message =>
      print_err format_usage ;;
      print_err (prog +:+ ": error: " +:+ message) ;;
      sys_exit 2
  end.

End Argparse.

(* --------------------------------------------------------------------- *)
(* embeddings.py                                                          *)
(* --------------------------------------------------------------------- *)

Section Embeddings.
Context `{Platform}.

(** The import guard at the top of the module. *)
Definition imports : M unit :=
  try_except is_ImportError
    (import "sentence_transformers" ;;
     import "torch" ;;
     import "numpy")
    (λ _,
       print "Required packages not found. Please install them with:" ;;
       print "pip install sentence-transformers torch numpy" ;;
       sys_exit 1).

Definition get_embedding (text : Text) (model_name : string) : M (pyobj F) :=
  try_except is_Exception
    (model ← load_model model_name;
     embedding ← model_encode model text true;
     embedding ← (match embedding with
                  | Tensor t => a ← lift (numpy (detach (cpu t))); mret (Ndarray a)
                  | _ => mret embedding
                  end);
     embedding ← mret (match embedding with
                       | Ndarray a => tolist a
                       | _ => embedding
                       end);
     mret embedding)
    (λ e,
       print_err ("Error generating embedding: " +:+ str e) ;;
       raise e).

(** The statements of main's [try] block. *)
Definition main_body (args : Namespace) : M Z :=
  f ← open_r (input args);
  text ← f_read f;
  embedding ← get_embedding text (model args);
  f ← open_w (output args);
  json_dump "embedding" embedding f ;;
  print ("Embedding saved to " +:+ output args) ;;
  mret 0.

Definition main (argv : list string) : M Z :=
  args ← parse_args argv;
  try_except is_Exception
    (main_body args)
    (λ e,
       print_err ("Error: " +:+ str e) ;;
       mret 1).

(** The module run as a script: the imports, then
    [sys.exit(main())]. *)
Definition script (argv : list string) : M unit :=
  imports ;;
  code ← main argv;
  sys_exit code.

(** The exit status of the process.  An exception that nothing caught
    ends the interpreter with status 1. *)
Definition exit_status {A} (r : outcome A) : Z :=
  match r with
  | Return _ => 0
  | Raise _ => 1
  | Exit code => code
  end.

Definition run (argv : list string) (w : World) : Z * World :=
  let '(r, w') := script argv w in (exit_status r, w').

End Embeddings.

(* --------------------------------------------------------------------- *)
(* A platform to run the script on                                        *)
(* --------------------------------------------------------------------- *)

Module Demo.

(** Floats with integral values, printed the way Python prints them
    (below 1e16 in magnitude). *)
Definition demo_floatstr (z : Z) : string :=
  NilEmpty.string_of_int (Z.to_int z) +:+ ".0".

(** A codec that refuses the byte 0xff. *)
Fixpoint demo_decode (s : string) : string + string :=
  match s with
  | EmptyString => inr EmptyString
  | String c rest =>
      if Ascii.eqb c (ascii_of_nat 255) then
        inl "'utf-8' codec can't decode byte 0xff: invalid start byte"
      else match demo_decode rest with
           | inr t => inr (String c t)
           | inl msg => inl msg
           end
  end.

(** A model repository with one model per kind of return value. *)
Definition demo_load (model_name : string) : exn + string :=
  if String.eqb model_name "demo/missing" then
    inl (LibraryError "demo/missing is not a valid model identifier")
  else inr model_name.

Definition demo_encode (m : string) (text : string) (normalize : bool)
  : exn + pyobj Z :=
  let v := if normalize then [0; 1; 0] else [0; 3; 0] in
  if String.eqb m "demo/tensor" then
    inr (Tensor (mkTensor float32 cuda_device true v))
  else if String.eqb m "demo/bf16" then
    inr (Tensor (mkTensor bfloat16 cpu_device false v))
  else if String.eqb m "demo/tuple" then inr (PyTuple (map PyFloat v))
  else if String.eqb m "demo/list" then inr (PyList (map PyFloat v))
  else if String.eqb m "demo/float32" then inr (PyList (map NpFloat32 v))
  else if String.eqb m "demo/broken" then inl (RuntimeError "inference failed")
  else inr (Ndarray v).

#[export] Instance demo : Platform := {|
  F := Z;
  Text := string;
  Model := string;
  SentenceTransformer := demo_load;
  encode := demo_encode;
  utf8_decode := demo_decode;
  floatstr := demo_floatstr;
  repr_str := λ s, "'" +:+ s +:+ "'";
  prog := "embeddings.py";
  format_usage :=
    "usage: embeddings.py [-h] --input INPUT --output OUTPUT [--model MODEL]";
  format_help := "usage: embeddings.py [-h] --input INPUT --output OUTPUT [--model MODEL]

Generate embeddings for text"
|}.

(** A machine with the packages installed, a text file, a directory, a
    read-only file, a file that is not UTF-8 and a path under a missing
    directory. *)
Definition demo_fs : gmap string entry :=
  <["hello.txt" := RegularFile true true "hello world"]>
  (<["out.json" := RegularFile true true "stale content"]>
  (<["docs" := Directory]>
  (<["locked.json" := RegularFile true false "keep"]>
  (<["binary.dat" := RegularFile true true (String (ascii_of_nat 255) "x")]>
  (<["nowhere/out.json" := NoEntry ENOENT]> ∅))))).

Definition demo_world : World :=
  mkWorld {["sentence_transformers"; "torch"; "numpy"]} demo_fs [] [] [].

(** The same machine without torch. *)
Definition bare_world : World :=
  mkWorld {["numpy"]} demo_fs [] [] [].

End Demo.

(* --------------------------------------------------------------------- *)
(* What the claims speak of                                               *)
(* --------------------------------------------------------------------- *)

Section Specification.
Context `{Platform}.

Definition scalar_value (s : scalar F) : F :=
  match s with PyFloat x | NpFloat32 x => x end.

(** The components of a numeric container, in order. *)
Definition values (o : pyobj F) : list F :=
  match o with
  | Tensor t => t_values t
  | Ndarray a => a
  | PyList l | PyTuple l => map scalar_value l
  end.

(** A plain list of Python floats. *)
Definition plain_list (v : list F) : pyobj F := PyList (map PyFloat v).

(** The JSON text of an object with the one key [embedding], whose value
    is the array of the numbers [v]. *)
Definition json_embedding_object (v : list F) : string :=
  "{" +:+ dquote +:+ "embedding" +:+ dquote +:+ ": "
    +:+ "[" +:+ join ", " (map floatstr v) +:+ "]" +:+ "}".

(** The three packages of the import guard are installed. *)
Definition installed (w : World) : Prop :=
  "sentence_transformers" ∈ packages w ∧ "torch" ∈ packages w
  ∧ "numpy" ∈ packages w.

(** What reading the input file gives: its whole content decoded, or the
    exception of [open] or of the codec. *)
Definition read_input (path : string) (m : gmap string entry) : exn + Text :=
  match m !! path with
  | Some (RegularFile true _ data) =>
      match utf8_decode data with
      | inr text => inr text
      | inl msg => inl (UnicodeDecodeError msg)
      end
  | Some (RegularFile false _ _) => inl (OSError EACCES path)
  | Some Directory => inl (OSError EISDIR path)
  | Some (NoEntry _) | None => inl (OSError ENOENT path)
  end.

(** What the three steps of get_embedding give: loading the model,
    encoding, converting. *)
Definition embedding_of (text : Text) (model_name : string) : exn + pyobj F :=
  match SentenceTransformer model_name with
  | inl e => inl e
  | inr m =>
      match encode m text true with
      | inl e => inl e
      | inr (Tensor t) =>
          match numpy (detach (cpu t)) with
          | inl e => inl e
          | inr a => inr (tolist a)
          end
      | inr (Ndarray a) => inr (tolist a)
      | inr o => inr o
      end
  end.

(** The library calls that get_embedding makes. *)
Definition model_calls (text : Text) (model_name : string) : list event :=
  EvLoadModel model_name ::
  match SentenceTransformer model_name with
  | inl _ => []
  | inr _ => [EvEncode text true]
  end.

(** The exception that opening the output path for writing raises. *)
Definition open_output_error (path : string) (m : gmap string entry)
  : option exn :=
  match m !! path with
  | None | Some (RegularFile _ true _) => None
  | Some (RegularFile _ false _) => Some (OSError EACCES path)
  | Some Directory => Some (OSError EISDIR path)
  | Some (NoEntry why) => Some (OSError why path)
  end.

(** The exception that writing the output raises: that of [open], or the
    encoder's. *)
Definition write_output_error (path : string) (m : gmap string entry)
    (embedding : pyobj F) : option exn :=
  match open_output_error path m with
  | Some e => Some e
  | None => snd (iterencode_dict "embedding" embedding)
  end.

(** The first exception among reading the input, loading the model,
    encoding (and converting), and writing the output. *)
Definition first_failure (args : Namespace) (w : World) : option exn :=
  match read_input (input args) (fs w) with
  | inl e => Some e
  | inr text =>
      match embedding_of text (model args) with
      | inl e => Some e
      | inr embedding => write_output_error (output args) (fs w) embedding
      end
  end.

Definition action_eqb (a a' : action) : bool :=
  match a, a' with
  | Help, Help | StoreInput, StoreInput
  | StoreOutput, StoreOutput | StoreModel, StoreModel => true
  | _, _ => false
  end.

(** The token is the option of [a]. *)
Definition token_for (a : action) (t : token) : bool :=
  match t with
  | TOption a' _ _ => action_eqb a a'
  | _ => false
  end.

(** The word [s] of a command line is read as the option of [a]: it is
    one of its option strings, an abbreviation of one, or either with
    [=value] attached. *)
Definition reads_as (a : action) (s : string) : bool :=
  token_for a (parse_optional s).

(** The flag of [a] is given on the command line. *)
Definition given (a : action) (argv : list string) : bool :=
  existsb (reads_as a) argv.

(** The file calls of reading the input: [read] follows an [open] that
    succeeded. *)
Definition read_calls (path : string) (m : gmap string entry) : list event :=
  EvOpen path ModeR ::
  match m !! path with
  | Some (RegularFile true _ _) => [EvRead path]
  | _ => []
  end.

(** The file system once [data] has been written to a file opened at
    [path] with mode w: a new file, or the old one with its content
    replaced. *)
Definition written_file (path : string) (m : gmap string entry)
    (data : string) : gmap string entry :=
  <[path := RegularFile
              (match m !! path with
               | Some (RegularFile r _ _) => r
               | _ => true
               end) true data]> m.

Definition write_calls (path : string) (cs : list string) : list event :=
  EvOpen path ModeW :: map (EvWrite path) cs.

(** The rest of main's [try] block once the text is read, and once the
    embedding is computed. *)
Definition after_embedding (args : Namespace) (embedding : pyobj F) : M Z :=
  f ← open_w (output args);
  json_dump "embedding" embedding f ;;
  print ("Embedding saved to " +:+ output args) ;;
  mret 0.

Definition after_read (args : Namespace) (text : Text) : M Z :=
  embedding ← get_embedding text (model args);
  after_embedding args embedding.

Definition with_trace (evs : list event) (w : World) : World :=
  mkWorld (packages w) (fs w) (stdout w) (stderr w) (trace w ++ evs).

Definition imported : list event :=
  [EvImport "sentence_transformers"; EvImport "torch"; EvImport "numpy"].

Definition is_open_w (ev : event) : bool :=
  match ev with EvOpen _ ModeW => true | _ => false end.

Definition is_write (ev : event) : bool :=
  match ev with EvOpen _ ModeW | EvWrite _ _ => true | _ => false end.

(** The external calls, in order, that a run adds to the log. *)
Definition events_of_run (argv : list string) (w : World) : list event :=
  drop (List.length (trace w)) (trace (snd (run argv w))).

(** A call to the model that asks for normalized output, or a call of
    another kind. *)
Definition asks_normalized (ev : event) : bool :=
  match ev with
  | EvEncode _ b => b
  | _ => true
  end.

Definition is_import (ev : event) : bool :=
  match ev with EvImport _ => true | _ => false end.


(** The external calls of a run on a machine with the packages
    installed, stage by stage: the imports; for an accepted command line
    the reading; when a text was read the model calls; when an embedding
    was computed the opening of the output and the writes. *)
Definition run_log (argv : list string) (w : World) : list event :=
  match parse argv with
  | Parsed args =>
      imported ++ read_calls (input args) (fs w) ++
      match read_input (input args) (fs w) with
      | inl _ => []
      | inr text =>
          model_calls text (model args) ++
          match embedding_of text (model args) with
          | inl _ => []
          | inr embedding =>
              match open_output_error (output args) (fs w) with
              | Some _ => [EvOpen (output args) ModeW]
              | None =>
                  write_calls (output args)
                    (fst (iterencode_dict "embedding" embedding))
              end
          end
      end
  | HelpRequested | UsageError _ => imported
  end.

(** A required option that the namespace does not hold yet. *)
Definition unset (a : action) (ns : partial_namespace) : Prop :=
  match a with
  | StoreInput => p_input ns = None
  | StoreOutput => p_output ns = None
  | _ => False
  end.

(** A call to the model library. *)
Definition is_load (ev : event) : bool :=
  match ev with EvLoadModel _ => true | _ => false end.

Definition is_encode (ev : event) : bool :=
  match ev with EvEncode _ _ => true | _ => false end.

Definition is_model_call (ev : event) : bool := is_load ev || is_encode ev.

(** A file call is a read of the input path or a write of the output
    path; other calls are no file calls. *)
Definition on_input_or_output (args : Namespace) (ev : event) : Prop :=
  match ev with
  | EvOpen path ModeR | EvRead path => path = input args
  | EvOpen path ModeW | EvWrite path _ => path = output args
  | _ => True
  end.

(** The sequence holds a numpy scalar. *)
Definition has_numpy_scalar (l : list (scalar F)) : bool :=
  existsb (λ s, match s with NpFloat32 _ => true | PyFloat _ => false end) l.

(** The text that opens every output the encoder starts to write. *)
Definition json_object_opening : string :=
  "{" +:+ dquote +:+ "embedding" +:+ dquote +:+ ": ".

End Specification.

Global Instance installed_dec `{Platform} (w : World) : Decision (installed w).
Proof. unfold installed. apply _. Defined.

(** As [Demo] has it: a vector of integral floats has length one. *)
Definition demo_unit_norm (v : list Z) : Prop :=
  foldr (λ x acc, x * x + acc) 0 v = 1.

(* --------------------------------------------------------------------- *)
(* Strings and computations: basic facts                                  *)
(* --------------------------------------------------------------------- *)

Lemma str_app_nil_r (s : string) : s +:+ "" = s.
Proof.
  induction s as [|c s IH]; [done|].
  change (String c (s +:+ "") = String c s). by rewrite IH.
Qed.

Lemma str_app_assoc (a b c : string) : (a +:+ b) +:+ c = a +:+ (b +:+ c).
Proof.
  induction a as [|x a IH]; [done|].
  change (String x ((a +:+ b) +:+ c) = String x (a +:+ (b +:+ c))).
  by rewrite IH.
Qed.

Ltac unfold_monad :=
  unfold mbind, M_bind, bind, mret, M_ret, ret, raise, lift, try_except,
    sys_exit, is_Exception in *.

Section GetEmbedding.
Context `{Platform}.

(** get_embedding as a function of what the library does: it returns the
    converted value, or logs and re-raises the exception; either way the
    files and standard output are as they were. *)
Lemma get_embedding_run text model_name w :
  get_embedding text model_name w =
    let w' := mkWorld (packages w) (fs w) (stdout w) (stderr w)
                (trace w ++ model_calls text model_name) in
    match embedding_of text model_name with
    | inr embedding => (Return embedding, w')
    | inl e => (Raise e, to_stderr ("Error generating embedding: " +:+ str e) w')
    end.
Proof.
  unfold get_embedding, embedding_of, model_calls, load_model, model_encode.
  unfold_monad. unfold print_err, to_stderr, log. simpl.
  destruct (SentenceTransformer model_name) as [e|m]; simpl.
  { done. }
  rewrite <- (assoc_L (++)). simpl.
  destruct (encode m text true) as [e|[t|a|l|l]]; simpl; try done.
  destruct (numpy (detach (cpu t))) as [e|a]; simpl; done.
Qed.

(** After [cpu] and [detach], only the dtype can stop [numpy]. *)
Lemma numpy_detach_cpu (t : tensor F) :
  numpy (detach (cpu t)) =
    match t_dtype t with
    | bfloat16 => inl (TypeError "Got unsupported ScalarType BFloat16")
    | _ => inr (t_values t)
    end.
Proof. unfold numpy, detach, cpu. simpl. by destruct (t_dtype t). Qed.

End GetEmbedding.

Section MainBody.
Context `{Platform}.

Lemma append_data_nil (e : entry) : append_data "" e = e.
Proof. destruct e; simpl; [by rewrite str_app_nil_r | done | done]. Qed.

Lemma append_data_app (a b : string) (e : entry) :
  append_data b (append_data a e) = append_data (a +:+ b) e.
Proof. destruct e; simpl; [by rewrite str_app_assoc | done | done]. Qed.

(** Writing the chunks one by one appends their concatenation. *)
Lemma write_all_run (f : file) (cs : list string) (w : World) :
  write_all f cs w =
    (Return (),
     mkWorld (packages w) (alter (append_data (concat_all cs)) f (fs w))
       (stdout w) (stderr w) (trace w ++ map (EvWrite f) cs)).
Proof.
  revert w. induction cs as [|c cs IH]; intros w.
  - simpl. unfold_monad. destruct w as [p m o e t]. simpl.
    rewrite (right_id_L [] (++)). f_equal. f_equal.
    symmetry. apply alter_id. intros x _. apply append_data_nil.
  - change (write_all f (c :: cs)) with (f_write f c ;; write_all f cs).
    unfold_monad. unfold f_write at 1. rewrite IH.
    unfold set_fs, log. simpl. f_equal. f_equal.
    + rewrite alter_alter_eq. apply alter_ext. intros x _.
      unfold compose. rewrite append_data_app. done.
    + by rewrite <- (assoc_L (++)).
Qed.

(** Reading: the first two statements of the [try] block. *)
Lemma main_body_read (args : Namespace) (w : World) :
  main_body args w =
    let w' := with_trace (read_calls (input args) (fs w)) w in
    match read_input (input args) (fs w) with
    | inl e => (Raise e, w')
    | inr text => after_read args text w'
    end.
Proof.
  unfold main_body, after_read, after_embedding, read_input, read_calls,
    with_trace.
  unfold_monad. unfold open_r, f_read, log. simpl.
  destruct (fs w !! input args) as [[[|] wr data| |why]|] eqn:E; simpl;
    try done.
  - rewrite E. rewrite <- (assoc_L (++)). simpl.
    destruct (utf8_decode data); done.
Qed.

(** Embedding: the third statement. *)
Lemma after_read_run (args : Namespace) (text : Text) (w : World) :
  after_read args text w =
    let w' := with_trace (model_calls text (model args)) w in
    match embedding_of text (model args) with
    | inl e =>
        (Raise e, to_stderr ("Error generating embedding: " +:+ str e) w')
    | inr embedding => after_embedding args embedding w'
    end.
Proof.
  unfold after_read. unfold_monad. rewrite get_embedding_run. simpl.
  unfold with_trace. destruct (embedding_of text (model args)); done.
Qed.

(** Writing: the last statements. *)
Lemma after_embedding_run (args : Namespace) (embedding : pyobj F) (w : World) :
  after_embedding args embedding w =
    match open_output_error (output args) (fs w) with
    | Some e => (Raise e, with_trace [EvOpen (output args) ModeW] w)
    | None =>
        let cs := fst (iterencode_dict "embedding" embedding) in
        let w' :=
          mkWorld (packages w)
            (written_file (output args) (fs w) (concat_all cs))
            (stdout w) (stderr w)
            (trace w ++ write_calls (output args) cs) in
        match snd (iterencode_dict "embedding" embedding) with
        | Some e => (Raise e, w')
        | None => (Return 0, to_stdout ("Embedding saved to " +:+ output args) w')
        end
    end.
Proof.
  unfold after_embedding, open_output_error, json_dump, written_file,
    write_calls, with_trace.
  destruct (iterencode_dict "embedding" embedding) as [cs err]. simpl.
  unfold_monad. unfold open_w, log, set_fs. simpl.
  destruct (fs w !! output args) as [[r [|] data| |why]|] eqn:E; simpl;
    try done.
  - rewrite write_all_run. simpl. rewrite alter_insert_eq. simpl.
    rewrite <- (assoc_L (++)). simpl. destruct err; done.
  - rewrite write_all_run. simpl. rewrite alter_insert_eq. simpl.
    rewrite <- (assoc_L (++)). simpl. destruct err; done.
Qed.

End MainBody.

(* --------------------------------------------------------------------- *)
(* The encoder                                                            *)
(* --------------------------------------------------------------------- *)

Section JsonFacts.
Context `{Platform}.

Lemma concat_all_app (a b : list string) :
  concat_all (a ++ b) = concat_all a +:+ concat_all b.
Proof.
  induction a as [|x a IH]; [done|].
  change (x +:+ concat_all (a ++ b) = (x +:+ concat_all a) +:+ concat_all b).
  by rewrite IH, str_app_assoc.
Qed.

(** When the loop of the list encoder ends without an error, its chunks
    spell the elements, separated, and the closing bracket. *)
Lemma iterencode_items_text (rest : list (scalar F)) :
  ∀ (x : scalar F) (buf : string) (cs : list string),
    iterencode_items buf (x :: rest) = (cs, None) →
    concat_all cs =
      buf +:+ join ", " (map floatstr (map scalar_value (x :: rest))) +:+ "]".
Proof.
  induction rest as [|y rest IH]; intros x buf cs Hrun.
  - destruct x as [f|f]; simpl in Hrun; [|done].
    injection Hrun as <-. simpl.
    change (concat_all [buf +:+ floatstr f; "]"])
      with ((buf +:+ floatstr f) +:+ "]" +:+ "").
    by rewrite str_app_nil_r, str_app_assoc.
  - destruct x as [f|f]; [|done].
    change (iterencode_items buf (PyFloat f :: y :: rest))
      with (let '(cs, e) := iterencode_items ", " (y :: rest) in
            ((buf +:+ floatstr f) :: cs, e)) in Hrun.
    destruct (iterencode_items ", " (y :: rest)) as [cs' e'] eqn:E.
    injection Hrun as <- ->.
    change (concat_all ((buf +:+ floatstr f) :: cs'))
      with ((buf +:+ floatstr f) +:+ concat_all cs').
    rewrite (IH y ", " cs' E).
    change (join ", " (map floatstr (map scalar_value (PyFloat f :: y :: rest))))
      with (floatstr f +:+ ", "
              +:+ join ", " (map floatstr (map scalar_value (y :: rest)))).
    by rewrite !str_app_assoc.
Qed.

(** When the encoder ends without an error on [{"embedding": o}], what
    it wrote is the JSON object of the components of [o]. *)
Lemma iterencode_dict_text (o : pyobj F) (cs : list string) :
  iterencode_dict "embedding" o = (cs, None) →
  concat_all cs = json_embedding_object (values o).
Proof.
  unfold iterencode_dict.
  destruct (iterencode o) as [cs' e] eqn:E. intros Hrun.
  injection Hrun as <- ->.
  assert (concat_all cs'
          = "[" +:+ join ", " (map floatstr (values o)) +:+ "]") as Hcs.
  { destruct o as [t|a|l|l]; simpl in E; try done.
    - destruct l as [|x l]; simpl in E.
      + by injection E as <-.
      + by apply iterencode_items_text.
    - destruct l as [|x l]; simpl in E.
      + by injection E as <-.
      + by apply iterencode_items_text. }
  change ("{" +:+ (dquote +:+ "embedding" +:+ dquote) +:+ ": "
            +:+ concat_all (cs' ++ ["}"])
          = json_embedding_object (values o)).
  rewrite concat_all_app, Hcs. unfold json_embedding_object.
  change (concat_all ["}"]) with ("}" +:+ "").
  by rewrite !str_app_nil_r, !str_app_assoc.
Qed.



End JsonFacts.

(* --------------------------------------------------------------------- *)
(* The script, run by run                                                 *)
(* --------------------------------------------------------------------- *)

Section Runs.
Context `{Platform}.

Lemma imports_installed (w : World) :
  installed w → imports w = (Return (), with_trace imported w).
Proof.
  intros (Hst & Htorch & Hnumpy).
  unfold imports, import, with_trace, imported, log. unfold_monad. simpl.
  rewrite !decide_True by done. simpl.
  by rewrite <- !(assoc_L (++)).
Qed.

(** With a package missing, the guard prints its two lines and exits
    with status 1, having done nothing but try the imports. *)
Lemma imports_missing (w : World) :
  ¬ installed w →
  ∃ evs, Forall (λ ev, ∃ p, ev = EvImport p) evs ∧
    imports w =
      (Exit 1,
       mkWorld (packages w) (fs w)
         (stdout w ++ ["Required packages not found. Please install them with:";
                       "pip install sentence-transformers torch numpy"])
         (stderr w) (trace w ++ evs)).
Proof.
  intros Hmiss.
  unfold imports, import, print, to_stdout, log. unfold_monad. simpl.
  destruct (decide ("sentence_transformers" ∈ packages w)) as [Hst|Hst]; simpl.
  - destruct (decide ("torch" ∈ packages w)) as [Htorch|Htorch]; simpl.
    + destruct (decide ("numpy" ∈ packages w)) as [Hnumpy|Hnumpy]; simpl.
      * destruct Hmiss. done.
      * exists imported. split; [repeat constructor; eauto|].
        by rewrite <- !(assoc_L (++)).
    + exists [EvImport "sentence_transformers"; EvImport "torch"].
      split; [repeat constructor; eauto|].
      by rewrite <- !(assoc_L (++)).
  - exists [EvImport "sentence_transformers"].
    split; [repeat constructor; eauto|].
    by rewrite <- !(assoc_L (++)).
Qed.

(** With the packages installed and the command line accepted, the run is
    main's [try] block, and an exception from it becomes status 1 and a
    line on the error stream. *)
Lemma run_parsed (argv : list string) (args : Namespace) (w : World) :
  installed w → parse argv = Parsed args →
  run argv w =
    match main_body args (with_trace imported w) with
    | (Return code, w') => (code, w')
    | (Raise e, w') => (1, to_stderr ("Error: " +:+ str e) w')
    | (Exit code, w') => (code, w')
    end.
Proof.
  intros Hinst Hparse. unfold run, script, main, parse_args.
  unfold_monad. rewrite (imports_installed w Hinst), Hparse. simpl.
  destruct (main_body args (with_trace imported w)) as [[c|e|c] w']; done.
Qed.

(** With the packages installed and the command line refused, the parser
    ends the run. *)
Lemma run_not_parsed (argv : list string) (w : World) :
  installed w →
  run argv w =
    match parse argv with
    | Parsed args => run argv w
    | HelpRequested => (0, to_stdout format_help (with_trace imported w))
    | UsageError message =>
        (2, to_stderr (prog +:+ ": error: " +:+ message)
              (to_stderr format_usage (with_trace imported w)))
    end.
Proof.
  intros Hinst. destruct (parse argv) as [args| |message] eqn:Hparse; [done| |].
  - unfold run, script, main, parse_args. unfold_monad.
    by rewrite (imports_installed w Hinst), Hparse.
  - unfold run, script, main, parse_args. unfold_monad.
    by rewrite (imports_installed w Hinst), Hparse.
Qed.

End Runs.

Section RunCases.
Context `{Platform}.
Variables (argv : list string) (args : Namespace) (w : World).
Hypothesis Hinst : installed w.
Hypothesis Hparse : parse argv = Parsed args.

(** Reading the input raises. *)
Lemma run_read_fails (e : exn) :
  read_input (input args) (fs w) = inl e →
  run argv w =
    (1, mkWorld (packages w) (fs w) (stdout w)
          (stderr w ++ ["Error: " +:+ str e])
          (trace w ++ imported ++ read_calls (input args) (fs w))).
Proof.
  intros Hread. rewrite (run_parsed argv args w Hinst Hparse), main_body_read.
  simpl. rewrite Hread. unfold to_stderr, with_trace. simpl.
  by rewrite <- !(assoc_L (++)).
Qed.

(** Loading the model, encoding or converting raises. *)
Lemma run_embedding_fails (text : Text) (e : exn) :
  read_input (input args) (fs w) = inr text →
  embedding_of text (model args) = inl e →
  run argv w =
    (1, mkWorld (packages w) (fs w) (stdout w)
          (stderr w ++ ["Error generating embedding: " +:+ str e;
                        "Error: " +:+ str e])
          (trace w ++ imported ++ read_calls (input args) (fs w)
             ++ model_calls text (model args))).
Proof.
  intros Hread Hemb.
  rewrite (run_parsed argv args w Hinst Hparse), main_body_read.
  simpl. rewrite Hread, after_read_run. simpl. rewrite Hemb.
  unfold to_stderr, with_trace. simpl.
  by rewrite <- !(assoc_L (++)).
Qed.

(** Opening the output raises. *)
Lemma run_open_fails (text : Text) (embedding : pyobj F) (e : exn) :
  read_input (input args) (fs w) = inr text →
  embedding_of text (model args) = inr embedding →
  open_output_error (output args) (fs w) = Some e →
  run argv w =
    (1, mkWorld (packages w) (fs w) (stdout w)
          (stderr w ++ ["Error: " +:+ str e])
          (trace w ++ imported ++ read_calls (input args) (fs w)
             ++ model_calls text (model args)
             ++ [EvOpen (output args) ModeW])).
Proof.
  intros Hread Hemb Hopen.
  rewrite (run_parsed argv args w Hinst Hparse), main_body_read.
  simpl. rewrite Hread, after_read_run. simpl. rewrite Hemb.
  rewrite after_embedding_run. simpl. rewrite Hopen.
  unfold to_stderr, with_trace. simpl.
  by rewrite <- !(assoc_L (++)).
Qed.

(** The encoder raises: the output holds the chunks written so far. *)
Lemma run_dump_fails (text : Text) (embedding : pyobj F)
    (cs : list string) (e : exn) :
  read_input (input args) (fs w) = inr text →
  embedding_of text (model args) = inr embedding →
  open_output_error (output args) (fs w) = None →
  iterencode_dict "embedding" embedding = (cs, Some e) →
  run argv w =
    (1, mkWorld (packages w)
          (written_file (output args) (fs w) (concat_all cs))
          (stdout w) (stderr w ++ ["Error: " +:+ str e])
          (trace w ++ imported ++ read_calls (input args) (fs w)
             ++ model_calls text (model args)
             ++ write_calls (output args) cs)).
Proof.
  intros Hread Hemb Hopen Hdump.
  rewrite (run_parsed argv args w Hinst Hparse), main_body_read.
  simpl. rewrite Hread, after_read_run. simpl. rewrite Hemb.
  rewrite after_embedding_run. simpl. rewrite Hopen, Hdump.
  unfold to_stderr, with_trace. simpl.
  by rewrite <- !(assoc_L (++)).
Qed.

(** Nothing raises. *)
Lemma run_succeeds (text : Text) (embedding : pyobj F) (cs : list string) :
  read_input (input args) (fs w) = inr text →
  embedding_of text (model args) = inr embedding →
  open_output_error (output args) (fs w) = None →
  iterencode_dict "embedding" embedding = (cs, None) →
  run argv w =
    (0, mkWorld (packages w)
          (written_file (output args) (fs w) (concat_all cs))
          (stdout w ++ ["Embedding saved to " +:+ output args]) (stderr w)
          (trace w ++ imported ++ read_calls (input args) (fs w)
             ++ model_calls text (model args)
             ++ write_calls (output args) cs)).
Proof.
  intros Hread Hemb Hopen Hdump.
  rewrite (run_parsed argv args w Hinst Hparse), main_body_read.
  simpl. rewrite Hread, after_read_run. simpl. rewrite Hemb.
  rewrite after_embedding_run. simpl. rewrite Hopen, Hdump.
  unfold to_stdout, with_trace. simpl.
  by rewrite <- !(assoc_L (++)).
Qed.

(** The five cases are all there is, and the exception of a failing run
    is [first_failure]. *)
Lemma run_cases :
  (∃ e w', first_failure args w = Some e ∧ run argv w = (1, w')
           ∧ last (stderr w') = Some ("Error: " +:+ str e)
           ∧ stdout w' = stdout w)
  ∨ (∃ text embedding cs,
       first_failure args w = None
       ∧ read_input (input args) (fs w) = inr text
       ∧ embedding_of text (model args) = inr embedding
       ∧ open_output_error (output args) (fs w) = None
       ∧ iterencode_dict "embedding" embedding = (cs, None)).
Proof.
  unfold first_failure, write_output_error.
  destruct (read_input (input args) (fs w)) as [e|text] eqn:Hread.
  { left. eexists e, _. split; [done|]. split; [by apply run_read_fails|].
    simpl. by rewrite last_snoc. }
  destruct (embedding_of text (model args)) as [e|embedding] eqn:Hemb.
  { left. eexists e, _. split; [done|].
    split; [by eapply run_embedding_fails|]. simpl. split; [|done].
    replace (stderr w ++ ["Error generating embedding: " +:+ str e;
                          "Error: " +:+ str e])
      with ((stderr w ++ ["Error generating embedding: " +:+ str e])
              ++ ["Error: " +:+ str e])
      by (by rewrite <- (assoc_L (++))).
    by rewrite last_snoc. }
  destruct (open_output_error (output args) (fs w)) as [e|] eqn:Hopen.
  { left. eexists e, _. split; [done|].
    split; [by eapply run_open_fails|]. simpl. by rewrite last_snoc. }
  destruct (iterencode_dict "embedding" embedding) as [cs [e|]] eqn:Hdump.
  { left. eexists e, _. split; [done|].
    split; [by eapply run_dump_fails|]. simpl. by rewrite last_snoc. }
  right. by exists text, embedding, cs.
Qed.

End RunCases.

(* --------------------------------------------------------------------- *)
(* The parser                                                             *)
(* --------------------------------------------------------------------- *)

Section ParserFacts.
Context `{Platform}.

Lemma unset_store (a a' : action) (v : string) (ns : partial_namespace) :
  action_eqb a a' = false → unset a ns → unset a (store a' v ns).
Proof. destruct a, a'; simpl; done. Qed.

Lemma finish_unset (a : action) (ns : partial_namespace) (extras : list string)
    (args : Namespace) :
  unset a ns → finish ns extras ≠ Parsed args.
Proof.
  unfold finish. destruct a; simpl; try done; intros ->.
  - by destruct (p_output ns).
  - by destruct (p_input ns).
Qed.

Ltac smaller_tokens IH :=
  solve [ apply IH;
          [ simpl in *; lia
          | repeat match goal with
                   | Hall : Forall _ (_ :: _) |- _ =>
                       apply Forall_cons_1 in Hall; destruct Hall
                   end; repeat first [assumption | constructor]
          | .. ];
          first [ assumption
                | match goal with
                  | a : action |- _ => destruct a; simpl in *; done
                  end ] ].

(** The second pass cannot fill a required option that no token is for. *)
Lemma consume_unset (a : action) (n : nat) :
  ∀ (toks : list token) (ns : partial_namespace) (extras : list string),
    (List.length toks ≤ n)%nat →
    Forall (λ t, token_for a t = false) toks →
    unset a ns →
    ∀ args, consume ns extras toks ≠ Parsed args.
Proof.
  induction n as [|n IH]; intros toks ns extras Hlen Hall Hunset args.
  { destruct toks; [by apply (finish_unset a)|simpl in Hlen; lia]. }
  destruct toks as [|t rest]; [by apply (finish_unset a)|].
  pose proof Hall as Hhead. apply Forall_cons_1 in Hhead as [Hhead _].
  destruct t as [s|a' os ea|s| |s c]; simpl.
  - smaller_tokens IH.
  - simpl in Hhead.
    destruct a'; destruct ea as [ea|]; simpl;
      unfold ignored_explicit, expected_one;
      try done;
      try (destruct (String.eqb os "-h"); [destruct (short_help_flags ea)|];
           done);
      try (smaller_tokens IH);
      destruct rest as [|[s1|a1 os1 ea1|s1| |s1 c1] rest1]; try done;
      try (destruct rest1 as [|[s2|a2 os2 ea2|s2| |s2 c2] rest2]; try done);
      smaller_tokens IH.
  - smaller_tokens IH.
  - smaller_tokens IH.
  - smaller_tokens IH.
Qed.

(** Without a help token, the second pass does not end in the help page. *)
Lemma consume_no_help (n : nat) :
  ∀ (toks : list token) (ns : partial_namespace) (extras : list string),
    (List.length toks ≤ n)%nat →
    Forall (λ t, token_for Help t = false) toks →
    consume ns extras toks ≠ HelpRequested.
Proof.
  assert (∀ ns extras, finish ns extras ≠ HelpRequested) as Hfinish.
  { intros ns extras. unfold finish.
    destruct (p_input ns), (p_output ns), extras; done. }
  induction n as [|n IH]; intros toks ns extras Hlen Hall.
  { destruct toks; [apply Hfinish|simpl in Hlen; lia]. }
  destruct toks as [|t rest]; [apply Hfinish|].
  pose proof Hall as Hhead. apply Forall_cons_1 in Hhead as [Hhead _].
  destruct t as [s|a' os ea|s| |s c]; simpl.
  - smaller_tokens IH.
  - simpl in Hhead.
    destruct a'; destruct ea as [ea|]; simpl;
      unfold expected_one; try done;
      try (smaller_tokens IH);
      destruct rest as [|[s1|a1 os1 ea1|s1| |s1 c1] rest1]; try done;
      try (destruct rest1 as [|[s2|a2 os2 ea2|s2| |s2 c2] rest2]; try done);
      smaller_tokens IH.
  - smaller_tokens IH.
  - smaller_tokens IH.
  - smaller_tokens IH.
Qed.

(** The tokens of the first pass are those of the words, the separator,
    and positional words. *)
Lemma classify_not_given (a : action) (argv : list string) :
  given a argv = false →
  Forall (λ t, token_for a t = false) (classify argv).
Proof.
  unfold given. induction argv as [|s argv IH]; simpl; [constructor|].
  intros Hnone. apply orb_false_iff in Hnone as [Hs Hrest].
  destruct (String.eqb s "--").
  - constructor; [done|]. apply Forall_fmap. by apply Forall_true.
  - constructor; [done | by apply IH].
Qed.

Lemma ambiguous_usage (toks : list token) (r : parse_result) :
  ambiguous toks = Some r → ∃ message, r = UsageError message.
Proof.
  unfold ambiguous. destruct (List.find _ toks) as [[| | | |s c]|]; try done.
  intros [= <-]. eauto.
Qed.

(** A required flag that is not given: the command line is not accepted. *)
Lemma parse_required (a : action) (argv : list string) (args : Namespace) :
  a = StoreInput ∨ a = StoreOutput →
  given a argv = false → parse argv ≠ Parsed args.
Proof.
  intros Ha Hnone. unfold parse.
  destruct (ambiguous (classify argv)) as [r|] eqn:Hamb.
  { apply ambiguous_usage in Hamb as [message ->]. done. }
  apply (consume_unset a (List.length (classify argv))).
  - done.
  - by apply classify_not_given.
  - by destruct Ha as [-> | ->].
Qed.

(** No help flag given: the parser does not print the help page. *)
Lemma parse_no_help (argv : list string) :
  given Help argv = false → parse argv ≠ HelpRequested.
Proof.
  intros Hnone. unfold parse.
  destruct (ambiguous (classify argv)) as [r|] eqn:Hamb.
  { apply ambiguous_usage in Hamb as [message ->]. done. }
  apply (consume_no_help (List.length (classify argv))); [done|].
  by apply classify_not_given.
Qed.

End ParserFacts.

(* --------------------------------------------------------------------- *)
(* Runs, summarized                                                       *)
(* --------------------------------------------------------------------- *)

Section Summaries.
Context `{Platform}.

Lemma values_plain_list (v : list F) : values (plain_list v) = v.
Proof.
  unfold plain_list, values. induction v as [|x v IH]; [done|].
  simpl. by rewrite IH.
Qed.

(** A text was read: the path names a readable file, and the text is the
    decoding of all of its content. *)
Lemma read_input_inr (path : string) (m : gmap string entry) (text : Text) :
  read_input path m = inr text →
  ∃ wr data, m !! path = Some (RegularFile true wr data)
             ∧ utf8_decode data = inr text.
Proof.
  unfold read_input.
  destruct (m !! path) as [[[|] wr data| |why]|]; try done.
  destruct (utf8_decode data) as [msg|t] eqn:E; [done|].
  intros [= <-]. eauto.
Qed.

(** An embedding was computed: the model loaded and encoded, and the
    embedding has the components of what the model returned. *)
Lemma embedding_of_inr (text : Text) (model_name : string) (o : pyobj F) :
  embedding_of text model_name = inr o →
  ∃ m enc, SentenceTransformer model_name = inr m
           ∧ encode m text true = inr enc
           ∧ values o = values enc.
Proof.
  unfold embedding_of.
  destruct (SentenceTransformer model_name) as [e|m]; [done|].
  destruct (encode m text true) as [e|[t|a|l|l]] eqn:E; try done.
  - rewrite numpy_detach_cpu.
    destruct (t_dtype t); try done; intros [= <-]; exists m, (Tensor t);
      (repeat split; [done..|]); apply (values_plain_list (t_values t)).
  - intros [= <-]. exists m, (Ndarray a).
    repeat split; [done..|]. apply (values_plain_list a).
  - intros [= <-]. by exists m, (PyList l).
  - intros [= <-]. by exists m, (PyTuple l).
Qed.

(** With a package missing, every command line gets the same run. *)
Lemma run_not_installed (w : World) :
  ¬ installed w →
  ∃ evs, Forall (λ ev, is_import ev = true) evs ∧
    ∀ argv,
      run argv w =
        (1, mkWorld (packages w) (fs w)
              (stdout w ++ ["Required packages not found. Please install them with:";
                            "pip install sentence-transformers torch numpy"])
              (stderr w) (trace w ++ evs)).
Proof.
  intros Hmiss. destruct (imports_missing w Hmiss) as (evs & Hevs & Hrun).
  exists evs. split.
  - eapply Forall_impl; [exact Hevs|]. by intros ev [p ->].
  - intros argv. unfold run, script. unfold_monad. by rewrite Hrun.
Qed.

(** The outcome of get_embedding, whatever the world. *)
Lemma get_embedding_outcome (text : Text) (model_name : string) (w : World) :
  fst (get_embedding text model_name w) =
    match embedding_of text model_name with
    | inr embedding => Return embedding
    | inl e => Raise e
    end.
Proof.
  rewrite get_embedding_run. simpl.
  by destruct (embedding_of text model_name).
Qed.

(** A run that the parser let through and that ended with status 0: the
    input was read, the model loaded and encoded, and the output holds the
    JSON object of the model's values; no other path changed. *)
Lemma run_success_output (argv : list string) (args : Namespace)
    (w w' : World) :
  parse argv = Parsed args → run argv w = (0, w') →
  ∃ wr data text m enc r,
    fs w !! input args = Some (RegularFile true wr data)
    ∧ utf8_decode data = inr text
    ∧ SentenceTransformer (model args) = inr m
    ∧ encode m text true = inr enc
    ∧ fs w' !! output args
      = Some (RegularFile r true (json_embedding_object (values enc)))
    ∧ ∀ path, path ≠ output args → fs w' !! path = fs w !! path.
Proof.
  intros Hparse Hrun.
  destruct (decide (installed w)) as [Hinst|Hmiss]; cycle 1.
  { destruct (run_not_installed w Hmiss) as (evs & _ & Hrun').
    rewrite Hrun' in Hrun. done. }
  destruct (run_cases argv args w Hinst Hparse)
    as [(e & w1 & _ & Hrun' & _)
       |(text & embedding & cs & _ & Hread & Hemb & Hopen & Hdump)].
  { rewrite Hrun' in Hrun. done. }
  rewrite (run_succeeds argv args w Hinst Hparse text embedding cs
             Hread Hemb Hopen Hdump) in Hrun.
  injection Hrun as <-.
  destruct (read_input_inr _ _ _ Hread) as (wr & data & Hfile & Hdec).
  destruct (embedding_of_inr _ _ _ Hemb) as (m & enc & Hload & Henc & Hval).
  eexists wr, data, text, m, enc, _. repeat split; try done.
  - simpl. unfold written_file. rewrite lookup_insert_eq.
    by rewrite (iterencode_dict_text embedding cs Hdump), Hval.
  - intros path Hne. simpl. unfold written_file.
    by rewrite lookup_insert_ne.
Qed.

End Summaries.

Section Logs.
Context `{Platform}.

Lemma events_of_run_installed (argv : list string) (w : World) :
  installed w → events_of_run argv w = run_log argv w.
Proof.
  intros Hinst. unfold events_of_run, run_log.
  destruct (parse argv) as [args| |message] eqn:Hparse.
  - destruct (read_input (input args) (fs w)) as [e|text] eqn:Hread.
    { rewrite (run_read_fails argv args w Hinst Hparse e Hread). simpl.
      by rewrite drop_app_length, ?(right_id_L [] (++)). }
    destruct (embedding_of text (model args)) as [e|embedding] eqn:Hemb.
    { rewrite (run_embedding_fails argv args w Hinst Hparse text e Hread Hemb).
      simpl. by rewrite drop_app_length, ?(right_id_L [] (++)). }
    destruct (open_output_error (output args) (fs w)) as [e|] eqn:Hopen.
    { rewrite (run_open_fails argv args w Hinst Hparse text embedding e
                 Hread Hemb Hopen).
      simpl. by rewrite drop_app_length, ?(right_id_L [] (++)). }
    destruct (iterencode_dict "embedding" embedding) as [cs [e|]] eqn:Hdump.
    + rewrite (run_dump_fails argv args w Hinst Hparse text embedding cs e
                 Hread Hemb Hopen Hdump).
      simpl. by rewrite drop_app_length, ?(right_id_L [] (++)).
    + rewrite (run_succeeds argv args w Hinst Hparse text embedding cs
                 Hread Hemb Hopen Hdump).
      simpl. by rewrite drop_app_length, ?(right_id_L [] (++)).
  - rewrite (run_not_parsed argv w Hinst), Hparse. simpl.
    by rewrite drop_app_length, ?(right_id_L [] (++)).
  - rewrite (run_not_parsed argv w Hinst), Hparse. simpl.
    by rewrite drop_app_length, ?(right_id_L [] (++)).
Qed.

Lemma model_calls_normalized (text : Text) (model_name : string) :
  Forall (λ ev, asks_normalized ev = true) (model_calls text model_name).
Proof.
  unfold model_calls.
  destruct (SentenceTransformer model_name); repeat constructor.
Qed.

Lemma read_calls_normalized (path : string) (m : gmap string entry) :
  Forall (λ ev, asks_normalized ev = true) (read_calls path m).
Proof.
  unfold read_calls.
  destruct (m !! path) as [[[|] wr data| |why]|]; repeat constructor.
Qed.

Lemma write_calls_normalized (path : string) (cs : list string) :
  Forall (λ ev, asks_normalized ev = true) (write_calls path cs).
Proof.
  unfold write_calls. constructor; [done|].
  apply Forall_fmap. by apply Forall_true.
Qed.

(** Every call to the model in the log asks for normalized output. *)
Lemma run_log_normalized (argv : list string) (w : World) :
  Forall (λ ev, asks_normalized ev = true) (run_log argv w).
Proof.
  assert (Forall (λ ev, asks_normalized ev = true) imported) as Himp
    by repeat constructor.
  unfold run_log. destruct (parse argv) as [args| |message]; try done.
  apply Forall_app. split; [done|].
  apply Forall_app. split; [apply read_calls_normalized|].
  destruct (read_input (input args) (fs w)) as [e|text]; [constructor|].
  apply Forall_app. split; [apply model_calls_normalized|].
  destruct (embedding_of text (model args)) as [e|embedding]; [constructor|].
  destruct (open_output_error (output args) (fs w)).
  - repeat constructor.
  - apply write_calls_normalized.
Qed.

Lemma model_calls_no_write (text : Text) (model_name : string) :
  Forall (λ ev, is_write ev = false) (model_calls text model_name).
Proof.
  unfold model_calls.
  destruct (SentenceTransformer model_name); repeat constructor.
Qed.

Lemma read_calls_no_write (path : string) (m : gmap string entry) :
  Forall (λ ev, is_write ev = false) (read_calls path m).
Proof.
  unfold read_calls.
  destruct (m !! path) as [[[|] wr data| |why]|]; repeat constructor.
Qed.

(** A log with an open-for-writing or a write in it is the log of a run
    in which get_embedding returned. *)
Lemma run_log_write (argv : list string) (w : World) :
  Exists (λ ev, is_write ev = true) (run_log argv w) →
  ∃ args text embedding,
    parse argv = Parsed args
    ∧ read_input (input args) (fs w) = inr text
    ∧ embedding_of text (model args) = inr embedding.
Proof.
  assert (∀ l : list event, Forall (λ ev, is_write ev = false) l →
            ¬ Exists (λ ev, is_write ev = true) l) as Hnone.
  { intros l Hall Hex. apply Exists_exists in Hex as (ev & Hin & Hev).
    rewrite Forall_forall in Hall. specialize (Hall ev Hin). congruence. }
  assert (Forall (λ ev, is_write ev = false) imported) as Himp
    by repeat constructor.
  unfold run_log. destruct (parse argv) as [args| |message];
    [|intros Hex; by destruct (Hnone _ Himp)..].
  rewrite !Exists_app. intros [Hex|[Hex|Hex]].
  { by destruct (Hnone _ Himp). }
  { by destruct (Hnone _ (read_calls_no_write (input args) (fs w))). }
  destruct (read_input (input args) (fs w)) as [e|text] eqn:Hread;
    [by apply Exists_nil in Hex|].
  apply Exists_app in Hex as [Hex|Hex].
  { by destruct (Hnone _ (model_calls_no_write text (model args))). }
  destruct (embedding_of text (model args)) as [e|embedding] eqn:Hemb;
    [by apply Exists_nil in Hex|].
  by exists args, text, embedding.
Qed.

End Logs.

(* --------------------------------------------------------------------- *)
(* Sample runs                                                            *)
(* --------------------------------------------------------------------- *)

Example parse_long_options :
  parse (H := Demo.demo) ["--input"; "a.txt"; "--output"; "b.json"]
  = Parsed (mkNamespace "a.txt" "b.json" "jinaai/jina-embeddings-v3").
Proof. reflexivity. Qed.

Example parse_equals_and_abbreviation :
  parse (H := Demo.demo) ["--out=b.json"; "--in"; "a.txt"; "--model"; "m"]
  = Parsed (mkNamespace "a.txt" "b.json" "m").
Proof. reflexivity. Qed.

Example parse_last_value_wins :
  parse (H := Demo.demo) ["--input"; "a"; "--output"; "b"; "--input"; "c"]
  = Parsed (mkNamespace "c" "b" "jinaai/jina-embeddings-v3").
Proof. reflexivity. Qed.

Example parse_missing_output :
  parse (H := Demo.demo) ["--input"; "a.txt"]
  = UsageError "the following arguments are required: --output".
Proof. reflexivity. Qed.

Example parse_missing_value :
  parse (H := Demo.demo) ["--input"; "--output"; "b.json"]
  = UsageError "argument --input: expected one argument".
Proof. reflexivity. Qed.

Example parse_stray_word :
  parse (H := Demo.demo) ["--input"; "a"; "--output"; "b"; "c"]
  = UsageError "unrecognized arguments: c".
Proof. reflexivity. Qed.

Example parse_help_before_required :
  parse (H := Demo.demo) ["--input"; "a.txt"; "--help"] = HelpRequested.
Proof. reflexivity. Qed.

(** A list of numpy scalars is not converted by get_embedding; the
    encoder stops at its first element, after the output was emptied and
    the chunks before it were written. *)
Example run_numpy_scalars :
  ∃ w', run ["--input"; "hello.txt"; "--output"; "out.json";
             "--model"; "demo/float32"] Demo.demo_world = (1, w')
        ∧ fs w' !! "out.json"
          = Some (RegularFile true true
                    ("{" +:+ dquote +:+ "embedding" +:+ dquote +:+ ": ["))
        ∧ stderr w'
          = ["Error: Object of type float32 is not JSON serializable"].
Proof. eexists. split; [vm_compute; reflexivity|]. split; reflexivity. Qed.

(* ===================================================================== *)
(* The claims                                                             *)
(* ===================================================================== *)

(** C1.  For every invocation that succeeds (the command line is accepted
    and the process ends with status 0), the input was read and decoded,
    the model loaded and encoded it, and the file at the --output path
    holds exactly the JSON text of an object with the one key "embedding"
    whose value is the array of the model's numbers in the model's order:
    written in full, whatever was there before, with every other path
    left as it was. *)
Theorem C1_output_is_the_embedding_object `{Platform}
    (argv : list string) (args : Namespace) (w w' : World) :
  parse argv = Parsed args →
  run argv w = (0, w') →
  ∃ wr data text m enc r,
    fs w !! input args = Some (RegularFile true wr data)
    ∧ utf8_decode data = inr text
    ∧ SentenceTransformer (model args) = inr m
    ∧ encode m text true = inr enc
    ∧ fs w' !! output args
      = Some (RegularFile r true (json_embedding_object (values enc)))
    ∧ ∀ path, path ≠ output args → fs w' !! path = fs w !! path.
Proof. apply run_success_output. Qed.

Lemma C1_witness :
  ∃ r, fs (snd (run ["--input"; "hello.txt"; "--output"; "out.json"]
                  Demo.demo_world)) !! "out.json"
       = Some (RegularFile r true
                 ("{" +:+ dquote +:+ "embedding" +:+ dquote
                    +:+ ": [0.0, 1.0, 0.0]}")).
Proof.
  destruct (C1_output_is_the_embedding_object (H := Demo.demo)
              ["--input"; "hello.txt"; "--output"; "out.json"]
              (mkNamespace "hello.txt" "out.json" default_model)
              Demo.demo_world
              (snd (run ["--input"; "hello.txt"; "--output"; "out.json"]
                      Demo.demo_world)))
    as (wr & data & text & m & enc & r & Hfile & Hdec & Hload & Henc & Hout & _).
  - vm_compute. reflexivity.
  - vm_compute. reflexivity.
  - vm_compute in Hload. injection Hload as <-.
    vm_compute in Hfile. injection Hfile as <- <-.
    vm_compute in Hdec. injection Hdec as <-.
    vm_compute in Henc. injection Henc as <-.
    exists r. exact Hout.
Defined.






(** C4.  The text handed to the model is the decoding, as UTF-8, of the
    whole content of the input file.  When the input path names nothing,
    the run ends with status 1 and the last line on the error stream is
    the no-such-file message of the operating system followed by the repr
    of the input path.  When it names a directory or a file that may not
    be read, the run ends with status 1 and the message of that OSError.
    When the content is not valid UTF-8, the run ends with status 1 and
    the message of the UnicodeDecodeError. *)
Theorem C4_input_read_whole_as_utf8 `{Platform}
    (argv : list string) (args : Namespace) (w : World) :
  installed w →
  parse argv = Parsed args →
  (∀ wr data text m,
     fs w !! input args = Some (RegularFile true wr data) →
     utf8_decode data = inr text →
     SentenceTransformer (model args) = inr m →
     EvEncode text true ∈ events_of_run argv w)
  ∧ ((fs w !! input args = None
      ∨ ∃ why, fs w !! input args = Some (NoEntry why)) →
     fst (run argv w) = 1
     ∧ last (stderr (snd (run argv w)))
       = Some ("Error: [Errno 2] No such file or directory: "
               +:+ repr_str (input args)))
  ∧ ((fs w !! input args = Some Directory
      ∨ ∃ wr data, fs w !! input args = Some (RegularFile false wr data)) →
     fst (run argv w) = 1
     ∧ ∃ code, last (stderr (snd (run argv w)))
               = Some ("Error: " +:+ str (OSError code (input args))))
  ∧ (∀ wr data msg,
       fs w !! input args = Some (RegularFile true wr data) →
       utf8_decode data = inl msg →
       fst (run argv w) = 1
       ∧ last (stderr (snd (run argv w)))
         = Some ("Error: " +:+ str (UnicodeDecodeError msg))).
Proof.
  intros Hinst Hparse.
  assert (∀ e, read_input (input args) (fs w) = inl e →
            fst (run argv w) = 1
            ∧ last (stderr (snd (run argv w))) = Some ("Error: " +:+ str e))
    as Hfail.
  { intros e Hread. rewrite (run_read_fails argv args w Hinst Hparse e Hread).
    simpl. by rewrite last_snoc. }
  split; [|split; [|split]].
  - intros wr data text m Hfile Hdec Hload.
    rewrite (events_of_run_installed argv w Hinst). unfold run_log.
    rewrite Hparse. unfold read_input, model_calls.
    rewrite Hfile, Hdec, Hload.
    rewrite !elem_of_app. right. right. left. repeat constructor.
  - intros Hnone. apply (Hfail (OSError ENOENT (input args))).
    unfold read_input. by destruct Hnone as [-> | [why ->]].
  - intros [Hdir | (wr & data & Hfile)].
    + destruct (Hfail (OSError EISDIR (input args))) as [Hcode Hline].
      { unfold read_input. by rewrite Hdir. }
      split; [done|]. by exists EISDIR.
    + destruct (Hfail (OSError EACCES (input args))) as [Hcode Hline].
      { unfold read_input. by rewrite Hfile. }
      split; [done|]. by exists EACCES.
  - intros wr data msg Hfile Hdec.
    apply (Hfail (UnicodeDecodeError msg)).
    unfold read_input. by rewrite Hfile, Hdec.
Qed.

Lemma demo_installed : installed Demo.demo_world.
Proof. unfold installed. simpl. repeat split; set_solver. Qed.

Lemma C4_witness :
  fst (run ["--input"; "nope.txt"; "--output"; "out.json"] Demo.demo_world) = 1
  ∧ last (stderr (snd (run ["--input"; "nope.txt"; "--output"; "out.json"]
                         Demo.demo_world)))
    = Some "Error: [Errno 2] No such file or directory: 'nope.txt'".
Proof.
  apply (proj1 (proj2 (C4_input_read_whole_as_utf8 (H := Demo.demo)
           ["--input"; "nope.txt"; "--output"; "out.json"]
           (mkNamespace "nope.txt" "out.json" default_model)
           Demo.demo_world demo_installed eq_refl))).
  left. vm_compute. reflexivity.
Defined.

(** C5, as amended.  For every invocation in which the required --input
    or --output flag is missing, the argument parser ends the process
    before any file is read or created and before any model call: with
    status 2, a usage error, or with status 0 when the command line asks
    for help; the status is 2 whenever no help flag is given. *)
Theorem C5_missing_required_flag_exits_in_parser `{Platform}
    (argv : list string) (w : World) :
  installed w →
  given StoreInput argv = false ∨ given StoreOutput argv = false →
  ∃ code w',
    run argv w = (code, w')
    ∧ (code = 2 ∨ code = 0)
    ∧ (given Help argv = false → code = 2)
    ∧ fs w' = fs w
    ∧ events_of_run argv w = imported.
Proof.
  intros Hinst Hmissing.
  assert (∀ args, parse argv ≠ Parsed args) as Hrefused.
  { intros args. destruct Hmissing as [Hin|Hout].
    - apply (parse_required StoreInput); auto.
    - apply (parse_required StoreOutput); auto. }
  pose proof (run_not_parsed argv w Hinst) as Hrun.
  pose proof (events_of_run_installed argv w Hinst) as Hlog.
  pose proof (parse_no_help argv) as Hhelp.
  unfold run_log in Hlog.
  destruct (parse argv) as [args| |message].
  - by destruct (Hrefused args).
  - eexists 0, _. split; [exact Hrun|]. repeat split; auto.
    intros Hnone. by destruct (Hhelp Hnone).
  - eexists 2, _. split; [exact Hrun|]. repeat split; auto.
Qed.

Lemma C5_witness :
  ∃ w', run ["--output"; "out.json"] Demo.demo_world = (2, w')
        ∧ fs w' = fs Demo.demo_world.
Proof.
  destruct (C5_missing_required_flag_exits_in_parser (H := Demo.demo)
              ["--output"; "out.json"] Demo.demo_world demo_installed
              (or_introl eq_refl))
    as (code & w' & Hrun & _ & Hcode & Hfs & _).
  exists w'. rewrite (Hcode eq_refl) in Hrun. split; assumption.
Defined.

(** C5, as stated, fails: with the help flag alone both required flags
    are missing, and the process exits with status 0. *)
Lemma C5_counterexample :
  given StoreInput ["-h"] = false
  ∧ given StoreOutput ["-h"] = false
  ∧ ¬ (fst (run (H := Demo.demo) ["-h"] Demo.demo_world) ≠ 0).
Proof.
  repeat split; [reflexivity..|].
  intros Hnonzero. apply Hnonzero. vm_compute. reflexivity.
Qed.

(** C6.  Every exception raised in get_embedding by loading the model, by
    encoding or by the conversion of a tensor is caught there, put on the
    error stream after the prefix "Error generating embedding: ", and raised
    again; main catches it, adds the line "Error: " with the same message,
    and the process exits with status 1. *)
Theorem C6_model_errors_logged_reraised_caught `{Platform}
    (argv : list string) (args : Namespace) (w : World) (text : Text)
    (e : exn) :
  installed w →
  parse argv = Parsed args →
  read_input (input args) (fs w) = inr text →
  (SentenceTransformer (model args) = inl e
   ∨ (∃ m, SentenceTransformer (model args) = inr m
           ∧ encode m text true = inl e)
   ∨ (∃ m t, SentenceTransformer (model args) = inr m
             ∧ encode m text true = inr (Tensor t)
             ∧ numpy (detach (cpu t)) = inl e)) →
  (∀ w0, ∃ w1,
     get_embedding text (model args) w0 = (Raise e, w1)
     ∧ stderr w1 = stderr w0 ++ ["Error generating embedding: " +:+ str e])
  ∧ ∃ w',
      run argv w = (1, w')
      ∧ stderr w' = stderr w ++ ["Error generating embedding: " +:+ str e;
                                 "Error: " +:+ str e].
Proof.
  intros Hinst Hparse Hread Hraised.
  assert (embedding_of text (model args) = inl e) as Hemb.
  { unfold embedding_of.
    destruct Hraised as [-> | [(m & -> & ->) | (m & t & -> & -> & ->)]]; done. }
  split.
  - intros w0. rewrite get_embedding_run, Hemb. simpl. eauto.
  - eexists. split; [by eapply run_embedding_fails|]. done.
Qed.

Lemma C6_witness :
  ∃ w', run ["--input"; "hello.txt"; "--output"; "out.json";
             "--model"; "demo/bf16"] Demo.demo_world = (1, w')
        ∧ stderr w'
          = ["Error generating embedding: Got unsupported ScalarType BFloat16";
             "Error: Got unsupported ScalarType BFloat16"].
Proof.
  refine (proj2 (C6_model_errors_logged_reraised_caught (H := Demo.demo)
            ["--input"; "hello.txt"; "--output"; "out.json";
             "--model"; "demo/bf16"]
            (mkNamespace "hello.txt" "out.json" "demo/bf16")
            Demo.demo_world "hello world"
            (TypeError "Got unsupported ScalarType BFloat16")
            demo_installed eq_refl eq_refl _)).
  right. right.
  exists "demo/bf16", (mkTensor bfloat16 cpu_device false [0; 1; 0]).
  repeat split; reflexivity.
Defined.

(** C7.  Every call to the model's encode in any run asks for normalized
    output; so, for a model whose normalized output always satisfies a
    unit-length predicate, the vector in the output file of a successful
    run satisfies it. *)
Theorem C7_encode_asks_for_unit_length `{Platform}
    (unit_norm : list F → Prop) (argv : list string) (w : World) :
  Forall (λ ev, asks_normalized ev = true) (events_of_run argv w)
  ∧ ((∀ m text enc, encode m text true = inr enc → unit_norm (values enc)) →
     ∀ args w',
       parse argv = Parsed args → run argv w = (0, w') →
       ∃ v r, unit_norm v
              ∧ fs w' !! output args
                = Some (RegularFile r true (json_embedding_object v))).
Proof.
  split.
  - destruct (decide (installed w)) as [Hinst|Hmiss].
    + rewrite (events_of_run_installed argv w Hinst).
      apply run_log_normalized.
    + destruct (run_not_installed w Hmiss) as (evs & Hevs & Hrun).
      unfold events_of_run. rewrite (Hrun argv). simpl.
      rewrite drop_app_length.
      eapply Forall_impl; [exact Hevs|]. by intros [].
  - intros Hcontract args w' Hparse Hrun.
    destruct (run_success_output argv args w w' Hparse Hrun)
      as (wr & data & text & m & enc & r & _ & _ & _ & Henc & Hout & _).
    exists (values enc), r. split; [by eapply Hcontract|done].
Qed.

Lemma demo_contract (m text : string) (enc : pyobj Z) :
  Demo.demo_encode m text true = inr enc →
  demo_unit_norm (values (H := Demo.demo) enc).
Proof.
  unfold Demo.demo_encode.
  repeat (match goal with
          | |- context [String.eqb ?a ?b] => destruct (String.eqb a b)
          end);
    intros [= <-]; reflexivity.
Qed.

Lemma C7_witness :
  ∃ v r, demo_unit_norm v
         ∧ fs (snd (run ["--input"; "hello.txt"; "--output"; "out.json"]
                      Demo.demo_world)) !! "out.json"
           = Some (RegularFile r true
                     (json_embedding_object (H := Demo.demo) v)).
Proof.
  apply (proj2 (C7_encode_asks_for_unit_length (H := Demo.demo)
                  demo_unit_norm
                  ["--input"; "hello.txt"; "--output"; "out.json"]
                  Demo.demo_world)
           demo_contract
           (mkNamespace "hello.txt" "out.json" default_model)).
  - reflexivity.
  - vm_compute. reflexivity.
Defined.

(** C8.  Two invocations whose input files have the same content and
    whose model identifiers are the same, the model being a function of
    identifier and text, leave the same JSON text at their output paths
    when both succeed. *)
Theorem C8_same_input_same_output `{Platform}
    (argv1 argv2 : list string) (args1 args2 : Namespace)
    (w1 w2 w1' w2' : World) (wr1 wr2 : bool) (data : string) :
  parse argv1 = Parsed args1 →
  parse argv2 = Parsed args2 →
  model args1 = model args2 →
  fs w1 !! input args1 = Some (RegularFile true wr1 data) →
  fs w2 !! input args2 = Some (RegularFile true wr2 data) →
  run argv1 w1 = (0, w1') →
  run argv2 w2 = (0, w2') →
  ∃ json r1 r2,
    fs w1' !! output args1 = Some (RegularFile r1 true json)
    ∧ fs w2' !! output args2 = Some (RegularFile r2 true json).
Proof.
  intros Hparse1 Hparse2 Hmodel Hfile1 Hfile2 Hrun1 Hrun2.
  destruct (run_success_output argv1 args1 w1 w1' Hparse1 Hrun1)
    as (wr & d1 & text1 & m1 & enc1 & r1 & Hf1 & Hdec1 & Hload1 & Henc1
        & Hout1 & _).
  destruct (run_success_output argv2 args2 w2 w2' Hparse2 Hrun2)
    as (wr' & d2 & text2 & m2 & enc2 & r2 & Hf2 & Hdec2 & Hload2 & Henc2
        & Hout2 & _).
  rewrite Hfile1 in Hf1. injection Hf1 as <- <-.
  rewrite Hfile2 in Hf2. injection Hf2 as <- <-.
  rewrite Hdec1 in Hdec2. injection Hdec2 as <-.
  rewrite Hmodel, Hload2 in Hload1. injection Hload1 as <-.
  rewrite Henc1 in Henc2. injection Henc2 as <-.
  by exists (json_embedding_object (values enc1)), r1, r2.
Qed.

Lemma C8_witness :
  ∃ json r1 r2,
    fs (snd (run ["--input"; "hello.txt"; "--output"; "out.json"]
               Demo.demo_world)) !! "out.json"
    = Some (RegularFile r1 true json)
    ∧ fs (snd (run ["--output=new.json"; "--input=hello.txt"]
                 Demo.demo_world)) !! "new.json"
      = Some (RegularFile r2 true json).
Proof.
  apply (C8_same_input_same_output (H := Demo.demo)
           ["--input"; "hello.txt"; "--output"; "out.json"]
           ["--output=new.json"; "--input=hello.txt"]
           (mkNamespace "hello.txt" "out.json" default_model)
           (mkNamespace "hello.txt" "new.json" default_model)
           Demo.demo_world Demo.demo_world _ _ true true "hello world").
  - reflexivity.
  - reflexivity.
  - reflexivity.
  - vm_compute. reflexivity.
  - vm_compute. reflexivity.
  - vm_compute. reflexivity.
  - vm_compute. reflexivity.
Defined.

(** C9.  When reading the input raises, or get_embedding raises (the
    model does not load, or encoding or converting fails), the run ends
    with status 1, the file system is what it was, and the run made no
    call that opens a file for writing or writes to one.  In any run, a
    file is opened for writing only when get_embedding has returned. *)
Theorem C9_output_untouched_before_serialization `{Platform}
    (argv : list string) (args : Namespace) (w : World) :
  installed w →
  parse argv = Parsed args →
  (((∃ e, read_input (input args) (fs w) = inl e)
    ∨ (∃ text e, read_input (input args) (fs w) = inr text
                 ∧ fst (get_embedding text (model args) w) = Raise e)) →
   fst (run argv w) = 1
   ∧ fs (snd (run argv w)) = fs w
   ∧ Forall (λ ev, is_write ev = false) (events_of_run argv w))
  ∧ (Exists (λ ev, is_write ev = true) (events_of_run argv w) →
     ∃ text embedding,
       read_input (input args) (fs w) = inr text
       ∧ fst (get_embedding text (model args) w) = Return embedding).
Proof.
  intros Hinst Hparse.
  rewrite (events_of_run_installed argv w Hinst). split.
  - assert (Forall (λ ev, is_write ev = false) imported) as Himp
      by repeat constructor.
    intros [[e Hread] | (text & e & Hread & Hraise)].
    + rewrite (run_read_fails argv args w Hinst Hparse e Hread).
      unfold run_log. rewrite Hparse, Hread. repeat split.
      rewrite !Forall_app. repeat split; try done.
      apply read_calls_no_write.
    + rewrite get_embedding_outcome in Hraise.
      destruct (embedding_of text (model args)) as [e'|o] eqn:Hemb; [|done].
      injection Hraise as ->.
      rewrite (run_embedding_fails argv args w Hinst Hparse text e Hread Hemb).
      unfold run_log. rewrite Hparse, Hread, Hemb. repeat split.
      rewrite !Forall_app. repeat split; try done.
      * apply read_calls_no_write.
      * apply model_calls_no_write.
  - intros Hex.
    destruct (run_log_write argv w Hex)
      as (args' & text & embedding & Hparse' & Hread & Hemb).
    rewrite Hparse in Hparse'. injection Hparse' as <-.
    exists text, embedding. split; [done|].
    by rewrite get_embedding_outcome, Hemb.
Qed.

Lemma C9_witness :
  fst (run ["--input"; "hello.txt"; "--output"; "out.json";
            "--model"; "demo/missing"] Demo.demo_world) = 1
  ∧ fs (snd (run ["--input"; "hello.txt"; "--output"; "out.json";
                  "--model"; "demo/missing"] Demo.demo_world))
    = fs Demo.demo_world
  ∧ Forall (λ ev, is_write ev = false)
      (events_of_run ["--input"; "hello.txt"; "--output"; "out.json";
                      "--model"; "demo/missing"] Demo.demo_world).
Proof.
  apply (proj1 (C9_output_untouched_before_serialization (H := Demo.demo)
           ["--input"; "hello.txt"; "--output"; "out.json";
            "--model"; "demo/missing"]
           (mkNamespace "hello.txt" "out.json" "demo/missing")
           Demo.demo_world demo_installed eq_refl)).
  right.
  exists "hello world",
    (LibraryError "demo/missing is not a valid model identifier").
  split; vm_compute; reflexivity.
Defined.

(** C10.  When one of sentence_transformers, torch and numpy cannot be
    imported, the process prints the two lines of installation
    instructions to standard output, nothing to the error stream, and
    exits with status 1, whatever the command line: no argument is parsed
    and no file touched, the only calls being the attempted imports. *)
Theorem C10_missing_package_exits_first `{Platform} (w : World) :
  ¬ installed w →
  ∃ w', (∀ argv, run argv w = (1, w'))
        ∧ stdout w'
          = stdout w
            ++ ["Required packages not found. Please install them with:";
                "pip install sentence-transformers torch numpy"]
        ∧ stderr w' = stderr w
        ∧ fs w' = fs w
        ∧ ∀ argv, Forall (λ ev, is_import ev = true) (events_of_run argv w).
Proof.
  intros Hmiss. destruct (run_not_installed w Hmiss) as (evs & Hevs & Hrun).
  eexists. split; [exact Hrun|]. repeat split.
  intros argv. unfold events_of_run. rewrite (Hrun argv). simpl.
  by rewrite drop_app_length.
Qed.

Lemma C10_witness :
  ∃ w', (∀ argv, run argv Demo.bare_world = (1, w'))
        ∧ stdout w'
          = ["Required packages not found. Please install them with:";
             "pip install sentence-transformers torch numpy"]
        ∧ stderr w' = []
        ∧ fs w' = fs Demo.bare_world
        ∧ ∀ argv, Forall (λ ev, is_import ev = true)
                    (events_of_run argv Demo.bare_world).
Proof.
  apply (C10_missing_package_exits_first (H := Demo.demo) Demo.bare_world).
  unfold installed. simpl. intros (Hst & _). set_solver.
Defined.

(* ===================================================================== *)
(* More of what the script does                                           *)
(* ===================================================================== *)

Section ExitStatus.
Context `{Platform}.

(** X1.  The process ends with status 0, 1 or 2, whatever the machine and
    the command line; on a machine with the packages installed, status 2
    is that of a usage error of the parser and of nothing else, and an
    accepted command line ends with 0 or 1. *)
Theorem X1_exit_status_is_0_1_or_2 (argv : list string) (w : World) :
  (fst (run argv w) = 0 ∨ fst (run argv w) = 1 ∨ fst (run argv w) = 2)
  ∧ (installed w →
     (fst (run argv w) = 2 ↔ ∃ message, parse argv = UsageError message)
     ∧ ((∃ args, parse argv = Parsed args) →
        fst (run argv w) = 0 ∨ fst (run argv w) = 1)).
Proof.
  assert (installed w → ∀ args, parse argv = Parsed args →
            fst (run argv w) = 0 ∨ fst (run argv w) = 1) as Hparsed.
  { intros Hinst args Hparse.
    destruct (run_cases argv args w Hinst Hparse)
      as [(e & w' & _ & -> & _)
         |(text & embedding & cs & _ & Hread & Hemb & Hopen & Hdump)].
    - by right.
    - left. by rewrite (run_succeeds argv args w Hinst Hparse text embedding cs). }
  destruct (decide (installed w)) as [Hinst|Hmiss]; cycle 1.
  { destruct (run_not_installed w Hmiss) as (evs & _ & Hrun).
    rewrite (Hrun argv). simpl. split; [auto | done]. }
  pose proof (run_not_parsed argv w Hinst) as Hrun.
  destruct (parse argv) as [args| |message] eqn:Hparse.
  - destruct (Hparsed Hinst args eq_refl) as [H0|H1].
    + split; [auto|]. intros _. split; [|auto].
      rewrite H0. split; [done | by intros [message Hm]].
    + split; [auto|]. intros _. split; [|auto].
      rewrite H1. split; [done | by intros [message Hm]].
  - rewrite Hrun. simpl. split; [auto|]. intros _. split.
    + split; [done | by intros [message Hm]].
    + by intros [args Hargs].
  - rewrite Hrun. simpl. split; [auto|]. intros _. split.
    + split; [eauto | done].
    + by intros [args Hargs].
Qed.

(** X2.  When the parser does not accept the command line, for whatever
    reason, nothing happens but its message: no file call, no model call
    and no change to the file system; the help page goes to standard
    output alone with status 0, a usage error to the error stream alone,
    as the usage line and one error line, with status 2. *)
Theorem X2_refused_command_line_does_nothing (argv : list string) (w : World) :
  installed w →
  (∀ args, parse argv ≠ Parsed args) →
  ∃ code w',
    run argv w = (code, w')
    ∧ fs w' = fs w
    ∧ events_of_run argv w = imported
    ∧ ((code = 0 ∧ stdout w' = stdout w ++ [format_help]
        ∧ stderr w' = stderr w)
       ∨ (code = 2 ∧ stdout w' = stdout w
          ∧ ∃ message,
              parse argv = UsageError message
              ∧ stderr w' = stderr w ++ [format_usage;
                                         prog +:+ ": error: " +:+ message])).
Proof.
  intros Hinst Hrefused.
  pose proof (run_not_parsed argv w Hinst) as Hrun.
  pose proof (events_of_run_installed argv w Hinst) as Hlog.
  unfold run_log in Hlog.
  destruct (parse argv) as [args| |message].
  - by destruct (Hrefused args).
  - eexists 0, _. split; [exact Hrun|]. repeat split; auto.
  - eexists 2, _. split; [exact Hrun|]. repeat split; auto.
    right. repeat split. exists message. split; [done|].
    simpl. by rewrite <- (assoc_L (++)).
Qed.

End ExitStatus.

Lemma X1_witness :
  fst (run ["--input"; "binary.dat"; "--output"; "out.json"]
         Demo.demo_world) = 0
  ∨ fst (run ["--input"; "binary.dat"; "--output"; "out.json"]
           Demo.demo_world) = 1.
Proof.
  apply (proj2 (proj2 (X1_exit_status_is_0_1_or_2 (H := Demo.demo)
           ["--input"; "binary.dat"; "--output"; "out.json"]
           Demo.demo_world) demo_installed)).
  eexists. reflexivity.
Defined.

Lemma X2_witness :
  ∃ code w',
    run ["--input"; "hello.txt"; "--output"; "out.json"; "--verbose"]
      Demo.demo_world = (code, w')
    ∧ fs w' = fs Demo.demo_world
    ∧ code = 2.
Proof.
  destruct (X2_refused_command_line_does_nothing (H := Demo.demo)
              ["--input"; "hello.txt"; "--output"; "out.json"; "--verbose"]
              Demo.demo_world demo_installed)
    as (code & w' & Hrun & Hfs & _ & [(_ & _ & Herr)|(Hcode & _)]).
  - intros args. vm_compute. discriminate.
  - vm_compute in Hrun. injection Hrun as <- <-. vm_compute in Herr.
    discriminate Herr.
  - exists code, w'. auto.
Defined.

Section ParserMore.
Context `{Platform}.

Lemma finish_model (ns : partial_namespace) (extras : list string)
    (args : Namespace) :
  finish ns extras = Parsed args → model args = p_model ns.
Proof.
  unfold finish.
  destruct (p_input ns), (p_output ns), extras; try done.
  by intros [= <-].
Qed.

Ltac shorter_tokens IH Hc :=
  solve [ apply IH in Hc;
          [ exact Hc
          | simpl in *; lia
          | repeat match goal with
                   | Hall : Forall _ (_ :: _) |- _ =>
                       apply Forall_cons_1 in Hall; destruct Hall
                   end; repeat first [assumption | constructor] ] ].

(** The second pass leaves the model identifier alone when no token is
    for --model. *)
Lemma consume_keeps_model (n : nat) :
  ∀ (toks : list token) (ns : partial_namespace) (extras : list string)
    (args : Namespace),
    (List.length toks ≤ n)%nat →
    Forall (λ t, token_for StoreModel t = false) toks →
    consume ns extras toks = Parsed args →
    model args = p_model ns.
Proof.
  induction n as [|n IH]; intros toks ns extras args Hlen Hall Hc.
  { destruct toks; [by eapply finish_model|simpl in Hlen; lia]. }
  destruct toks as [|t rest]; [by eapply finish_model|].
  pose proof Hall as Hhead. apply Forall_cons_1 in Hhead as [Hhead _].
  destruct t as [s|a' os ea|s| |s c]; simpl in Hc.
  - shorter_tokens IH Hc.
  - simpl in Hhead.
    destruct a'; destruct ea as [ea|]; simpl in Hc;
      unfold ignored_explicit, expected_one in Hc;
      try done;
      try (destruct (String.eqb os "-h"); [destruct (short_help_flags ea)|];
           done);
      try (shorter_tokens IH Hc);
      destruct rest as [|[s1|a1 os1 ea1|s1| |s1 c1] rest1]; try done;
      try (destruct rest1 as [|[s2|a2 os2 ea2|s2| |s2 c2] rest2]; try done);
      shorter_tokens IH Hc.
  - shorter_tokens IH Hc.
  - shorter_tokens IH Hc.
  - shorter_tokens IH Hc.
Qed.

(** A word that does not begin with a dash is positional, and is not the
    separator. *)
Lemma positional_word (s : string) :
  startswith "-" s = false →
  parse_optional s = TPositional s ∧ String.eqb s "--" = false.
Proof.
  destruct s as [|c s]; [done|].
  unfold startswith. simpl.
  destruct (ascii_dec "-" c) as [<-|Hne].
  { by destruct s. }
  intros _.
  assert (Ascii.eqb c "-" = false) as Hc by (by apply Ascii.eqb_neq).
  by rewrite Hc.
Qed.

(** X3.  When no word of an accepted command line is read as --model, the
    model identifier is the default, jinaai/jina-embeddings-v3, and that
    is the model the run loads once the input is read. *)
Theorem X3_model_defaults_to_jina_v3 (argv : list string) (args : Namespace)
    (w : World) :
  parse argv = Parsed args →
  given StoreModel argv = false →
  model args = "jinaai/jina-embeddings-v3"
  ∧ (installed w → ∀ text,
       read_input (input args) (fs w) = inr text →
       EvLoadModel "jinaai/jina-embeddings-v3" ∈ events_of_run argv w).
Proof.
  intros Hparse Hnone.
  assert (model args = default_model) as Hmodel.
  { unfold parse in Hparse.
    destruct (ambiguous (classify argv)) as [r|] eqn:Hamb.
    { apply ambiguous_usage in Hamb as [message ->]. done. }
    apply (consume_keeps_model (List.length (classify argv)) _ _ _ _
             (le_n _) (classify_not_given StoreModel argv Hnone) Hparse). }
  split; [exact Hmodel|].
  intros Hinst text Hread.
  rewrite (events_of_run_installed argv w Hinst). unfold run_log.
  rewrite Hparse, Hread, Hmodel. unfold model_calls.
  rewrite !elem_of_app. right. right. left. repeat constructor.
Qed.

(** X4.  The command line in its plain form is accepted: for values that
    do not begin with a dash, --input, --output and an optional --model,
    in either order of the required two, give the namespace of those
    values. *)
Theorem X4_plain_command_line_is_accepted (i o m : string) :
  startswith "-" i = false →
  startswith "-" o = false →
  startswith "-" m = false →
  parse ["--input"; i; "--output"; o] = Parsed (mkNamespace i o default_model)
  ∧ parse ["--output"; o; "--input"; i] = Parsed (mkNamespace i o default_model)
  ∧ parse ["--input"; i; "--output"; o; "--model"; m]
    = Parsed (mkNamespace i o m).
Proof.
  intros Hi Ho Hm.
  destruct (positional_word i Hi) as [Hpi Hsi].
  destruct (positional_word o Ho) as [Hpo Hso].
  destruct (positional_word m Hm) as [Hpm Hsm].
  unfold parse.
  change (classify ["--input"; i; "--output"; o])
    with (TOption StoreInput "--input" None ::
          (if String.eqb i "--" then TSeparator :: map TPositional ["--output"; o]
           else parse_optional i ::
                TOption StoreOutput "--output" None ::
                (if String.eqb o "--" then TSeparator :: map TPositional []
                 else [parse_optional o]))).
  change (classify ["--output"; o; "--input"; i])
    with (TOption StoreOutput "--output" None ::
          (if String.eqb o "--" then TSeparator :: map TPositional ["--input"; i]
           else parse_optional o ::
                TOption StoreInput "--input" None ::
                (if String.eqb i "--" then TSeparator :: map TPositional []
                 else [parse_optional i]))).
  change (classify ["--input"; i; "--output"; o; "--model"; m])
    with (TOption StoreInput "--input" None ::
          (if String.eqb i "--"
           then TSeparator :: map TPositional ["--output"; o; "--model"; m]
           else parse_optional i ::
                TOption StoreOutput "--output" None ::
                (if String.eqb o "--"
                 then TSeparator :: map TPositional ["--model"; m]
                 else parse_optional o ::
                      TOption StoreModel "--model" None ::
                      (if String.eqb m "--" then TSeparator :: map TPositional []
                       else [parse_optional m])))).
  rewrite Hsi, Hso, Hsm, Hpi, Hpo, Hpm. done.
Qed.

End ParserMore.

Lemma X3_witness :
  model (mkNamespace "hello.txt" "out.json" default_model)
  = "jinaai/jina-embeddings-v3".
Proof.
  apply (proj1 (X3_model_defaults_to_jina_v3 (H := Demo.demo)
                  ["--out"; "out.json"; "--input=hello.txt"]
                  (mkNamespace "hello.txt" "out.json" default_model)
                  Demo.demo_world eq_refl eq_refl)).
Defined.

Lemma X4_witness :
  parse (H := Demo.demo) ["--input"; "notes/a.txt"; "--output"; "a.json"]
  = Parsed (mkNamespace "notes/a.txt" "a.json" default_model).
Proof.
  apply (proj1 (X4_plain_command_line_is_accepted (H := Demo.demo)
                  "notes/a.txt" "a.json" "m" eq_refl eq_refl eq_refl)).
Defined.

Section ModelCalls.
Context `{Platform}.

Lemma read_calls_no_model (path : string) (m : gmap string entry) :
  Forall (λ ev, is_model_call ev = false) (read_calls path m).
Proof.
  unfold read_calls.
  destruct (m !! path) as [[[|] wr data| |why]|]; repeat constructor.
Qed.

Lemma write_calls_no_model (path : string) (cs : list string) :
  Forall (λ ev, is_model_call ev = false) (write_calls path cs).
Proof.
  unfold write_calls. constructor; [done|].
  apply Forall_fmap. by apply Forall_true.
Qed.

(** X5.  An input file that cannot be read or decoded costs no model
    load: the run makes no call to the model library. *)
Theorem X5_unreadable_input_loads_no_model (argv : list string)
    (args : Namespace) (w : World) (e : exn) :
  installed w →
  parse argv = Parsed args →
  read_input (input args) (fs w) = inl e →
  Forall (λ ev, is_model_call ev = false) (events_of_run argv w).
Proof.
  intros Hinst Hparse Hread.
  rewrite (events_of_run_installed argv w Hinst). unfold run_log.
  rewrite Hparse, Hread. rewrite !Forall_app. repeat split.
  - repeat constructor.
  - apply read_calls_no_model.
  - constructor.
Qed.

(** X6.  Every run loads at most one model and encodes at most once, and
    encodes only with a model that loaded; a run that ends with status 0
    on an accepted command line did each exactly once. *)
Theorem X6_model_called_at_most_once (argv : list string) (w : World) :
  (List.length (filter (λ ev, is_load ev = true) (events_of_run argv w))
   ≤ 1)%nat
  ∧ (List.length (filter (λ ev, is_encode ev = true) (events_of_run argv w))
     ≤ List.length (filter (λ ev, is_load ev = true) (events_of_run argv w)))%nat
  ∧ (∀ args, parse argv = Parsed args → fst (run argv w) = 0 →
     List.length (filter (λ ev, is_encode ev = true) (events_of_run argv w))
     = 1%nat).
Proof.
  assert (∀ l : list event, Forall (λ ev, is_model_call ev = false) l →
            filter (λ ev, is_load ev = true) l = []
            ∧ filter (λ ev, is_encode ev = true) l = []) as Hnone.
  { intros l Hl. induction Hl as [|ev l Hev _ [IH1 IH2]]; [done|].
    unfold is_model_call in Hev. apply orb_false_iff in Hev as [Hl1 Hl2].
    rewrite !filter_cons. rewrite !decide_False by congruence. done. }
  destruct (decide (installed w)) as [Hinst|Hmiss]; cycle 1.
  { destruct (run_not_installed w Hmiss) as (evs & Hevs & Hrun).
    unfold events_of_run. rewrite (Hrun argv). simpl.
    rewrite drop_app_length.
    destruct (Hnone evs) as [-> ->].
    { eapply Forall_impl; [exact Hevs|]. by intros []. }
    simpl. repeat split; first [lia | done]. }
  assert (Forall (λ ev, is_model_call ev = false) imported) as Himp
    by repeat constructor.
  destruct (Hnone _ Himp) as [Himp1 Himp2].
  rewrite (events_of_run_installed argv w Hinst).
  assert (∀ args, parse argv = Parsed args → fst (run argv w) = 0 →
            ∃ text embedding,
              read_input (input args) (fs w) = inr text
              ∧ embedding_of text (model args) = inr embedding) as Hok.
  { intros args Hparse Hzero.
    destruct (run_cases argv args w Hinst Hparse)
      as [(e & w' & _ & Hrun & _)
         |(text & embedding & cs & _ & Hread & Hemb & _)].
    - rewrite Hrun in Hzero. done.
    - eauto. }
  unfold run_log.
  destruct (parse argv) as [args| |message] eqn:Hparse;
    [|rewrite Himp1, Himp2; simpl; repeat split; first [lia | done]..].
  destruct (Hnone _ (read_calls_no_model (input args) (fs w))) as [Hr1 Hr2].
  rewrite !filter_app, Himp1, Himp2, Hr1, Hr2.
  destruct (read_input (input args) (fs w)) as [e|text] eqn:Hread.
  { simpl. repeat split; try lia. intros args' [= <-] Hzero.
    destruct (Hok args eq_refl Hzero) as (t & o & Ht & _).
    rewrite Hread in Ht. done. }
  rewrite !filter_app. unfold model_calls.
  destruct (embedding_of text (model args)) as [e|embedding] eqn:Hemb.
  { destruct (SentenceTransformer (model args)); simpl;
      (repeat split; try lia); intros args' [= <-] Hzero;
      destruct (Hok args eq_refl Hzero) as (t & o & Ht & Ho);
      rewrite Hread in Ht; injection Ht as <-; rewrite Hemb in Ho; done. }
  assert (∃ m, SentenceTransformer (model args) = inr m) as [m Hload].
  { destruct (embedding_of_inr _ _ _ Hemb) as (m & enc & Hm & _). eauto. }
  rewrite Hload.
  assert (Forall (λ ev, is_model_call ev = false)
            (match open_output_error (output args) (fs w) with
             | Some _ => [EvOpen (output args) ModeW]
             | None =>
                 write_calls (output args)
                   (fst (iterencode_dict "embedding" embedding))
             end)) as Htail.
  { destruct (open_output_error (output args) (fs w)).
    - repeat constructor.
    - apply write_calls_no_model. }
  destruct (Hnone _ Htail) as [-> ->]. simpl.
  repeat split; first [lia | done].
Qed.

End ModelCalls.

Lemma X5_witness :
  Forall (λ ev, is_model_call ev = false)
    (events_of_run (H := Demo.demo)
       ["--input"; "binary.dat"; "--output"; "out.json"] Demo.demo_world).
Proof.
  apply (X5_unreadable_input_loads_no_model (H := Demo.demo)
           ["--input"; "binary.dat"; "--output"; "out.json"]
           (mkNamespace "binary.dat" "out.json" default_model)
           Demo.demo_world
           (UnicodeDecodeError
              "'utf-8' codec can't decode byte 0xff: invalid start byte")
           demo_installed eq_refl).
  vm_compute. reflexivity.
Defined.

Lemma X6_witness :
  List.length (filter (λ ev, is_encode ev = true)
                 (events_of_run (H := Demo.demo)
                    ["--input"; "hello.txt"; "--output"; "out.json"]
                    Demo.demo_world)) = 1%nat.
Proof.
  apply (proj2 (proj2 (X6_model_called_at_most_once (H := Demo.demo)
           ["--input"; "hello.txt"; "--output"; "out.json"]
           Demo.demo_world))
           (mkNamespace "hello.txt" "out.json" default_model)).
  - reflexivity.
  - vm_compute. reflexivity.
Defined.

Ltac no_member Hin :=
  repeat (apply elem_of_cons in Hin as [Hin|Hin];
          [first [discriminate Hin | by vm_compute in Hin]|]);
  by apply elem_of_nil in Hin.

Section OutputFile.
Context `{Platform}.

Lemma embedding_of_outcome (text : Text) (model_name : string) (w : World)
    (embedding : pyobj F) :
  fst (get_embedding text model_name w) = Return embedding →
  embedding_of text model_name = inr embedding.
Proof.
  rewrite get_embedding_outcome.
  destruct (embedding_of text model_name); [done | by intros [= ->]].
Qed.

(** X7.  An output path that cannot be opened for writing (a directory, a
    file that may not be written, a path under a missing or refusing
    directory) is found out only after the model has been loaded and has
    encoded the text: the run then ends with status 1, one line on the
    error stream with the message of the OSError on the output path,
    nothing on standard output, and the file system as it was. *)
Theorem X7_unwritable_output_found_after_inference (argv : list string)
    (args : Namespace) (w : World) (text : Text) (embedding : pyobj F) :
  installed w →
  parse argv = Parsed args →
  read_input (input args) (fs w) = inr text →
  fst (get_embedding text (model args) w) = Return embedding →
  (fs w !! output args = Some Directory
   ∨ (∃ r data, fs w !! output args = Some (RegularFile r false data))
   ∨ (∃ why, fs w !! output args = Some (NoEntry why))) →
  ∃ code w',
    run argv w = (1, w')
    ∧ fs w' = fs w
    ∧ stdout w' = stdout w
    ∧ stderr w' = stderr w ++ ["Error: " +:+ str (OSError code (output args))]
    ∧ EvEncode text true ∈ events_of_run argv w.
Proof.
  intros Hinst Hparse Hread Hret Hout.
  apply embedding_of_outcome in Hret as Hemb.
  assert (∃ code, open_output_error (output args) (fs w)
                  = Some (OSError code (output args))) as [code Hopen].
  { unfold open_output_error.
    destruct Hout as [-> | [(r & data & ->) | (why & ->)]]; eauto. }
  exists code. eexists. split.
  { by eapply run_open_fails. }
  repeat split.
  rewrite (events_of_run_installed argv w Hinst). unfold run_log.
  rewrite Hparse, Hread, Hemb. unfold model_calls.
  destruct (embedding_of_inr _ _ _ Hemb) as (m & enc & -> & _).
  rewrite !elem_of_app. right. right. left. repeat constructor.
Qed.

(** X8.  A list or tuple holding a numpy scalar is handed on by
    get_embedding as it is, and the encoder refuses it after the output
    file was opened: the run ends with status 1 and the TypeError's line
    on the error stream, and the output path, whatever it held before,
    holds the text written up to there, which opens the object and does
    not end it. *)
Theorem X8_numpy_scalars_leave_partial_output (argv : list string)
    (args : Namespace) (w : World) (text : Text) (m : Model)
    (l : list (scalar F)) :
  installed w →
  parse argv = Parsed args →
  read_input (input args) (fs w) = inr text →
  SentenceTransformer (model args) = inr m →
  (encode m text true = inr (PyList l) ∨ encode m text true = inr (PyTuple l)) →
  has_numpy_scalar l = true →
  (fs w !! output args = None
   ∨ ∃ r data, fs w !! output args = Some (RegularFile r true data)) →
  ∃ w' r partial,
    run argv w = (1, w')
    ∧ fs w' !! output args
      = Some (RegularFile r true (json_object_opening +:+ partial))
    ∧ stderr w'
      = stderr w ++ ["Error: Object of type float32 is not JSON serializable"]
    ∧ EvWrite (output args) "}" ∉ events_of_run argv w.
Proof.
  intros Hinst Hparse Hread Hload Henc Hhas Hout.
  assert (∃ embedding cs,
            embedding_of text (model args) = inr embedding
            ∧ iterencode_dict "embedding" embedding
              = (["{"; dquote +:+ "embedding" +:+ dquote; ": "] ++ cs,
                 Some (not_serializable "float32"))
            ∧ Forall (λ c, c ≠ "}") cs)
    as (embedding & cs & Hemb & Hdump & Hcs).
  { assert (∀ c rest, c ≠ "}"%char →
              ∃ cs, iterencode_items (String c rest) l
                    = (cs, Some (not_serializable "float32"))
                    ∧ Forall (λ chunk, chunk ≠ "}") cs) as Hitems.
    { clear Henc. induction l as [|x l IH]; intros c rest Hc; [done|].
      destruct x as [f|f]; simpl in *.
      - destruct (IH Hhas ","%char " ") as (cs & -> & Hcs); [done|].
        eexists. split; [done|]. constructor; [|done].
        intros Heq. change (String c (rest +:+ floatstr f) = "}") in Heq.
        injection Heq as -> _. by destruct Hc.
      - eexists. split; [done|]. constructor; [|constructor].
        intros [= -> _]. by destruct Hc. }
    destruct (Hitems "["%char "") as (cs & Hrun & Hcs); [done|].
    assert (l ≠ []) as Hne by (by destruct l).
    unfold embedding_of. rewrite Hload.
    destruct Henc as [-> | ->].
    - exists (PyList l), cs. split; [done|]. split; [|done].
      unfold iterencode_dict, iterencode, iterencode_list.
      destruct l; [done|]. rewrite Hrun. by rewrite (right_id_L [] (++)).
    - exists (PyTuple l), cs. split; [done|]. split; [|done].
      unfold iterencode_dict, iterencode, iterencode_list.
      destruct l; [done|]. rewrite Hrun. by rewrite (right_id_L [] (++)). }
  assert (open_output_error (output args) (fs w) = None) as Hopen.
  { unfold open_output_error. by destruct Hout as [-> | (r & data & ->)]. }
  eexists _, _, (concat_all cs). split.
  { by eapply run_dump_fails. }
  split; [|split].
  - simpl. unfold written_file. rewrite lookup_insert_eq. reflexivity.
  - done.
  - rewrite (events_of_run_installed argv w Hinst). unfold run_log.
    rewrite Hparse, Hread, Hemb, Hopen, Hdump. simpl fst.
    unfold imported, read_calls, model_calls, write_calls.
    rewrite Hload.
    rewrite !elem_of_app.
    intros [Hin | [Hin | [Hin | Hin]]].
    + no_member Hin.
    + destruct (fs w !! input args) as [[[|] ? ?| |?]|]; no_member Hin.
    + no_member Hin.
    + apply elem_of_cons in Hin as [Hin|Hin]; [done|].
      apply list_elem_of_fmap in Hin as (c & Hc & Hin).
      injection Hc as <-.
      do 3 (apply elem_of_cons in Hin as [Hin|Hin];
            [first [discriminate Hin | by vm_compute in Hin]|]).
      rewrite Forall_forall in Hcs. by apply (Hcs "}").
Qed.


End OutputFile.

Lemma X7_witness :
  ∃ code w',
    run ["--input"; "hello.txt"; "--output"; "docs"] Demo.demo_world = (1, w')
    ∧ fs w' = fs Demo.demo_world
    ∧ stdout w' = stdout Demo.demo_world
    ∧ stderr w'
      = stderr Demo.demo_world
        ++ ["Error: " +:+ str (H := Demo.demo) (OSError code "docs")]
    ∧ EvEncode (H := Demo.demo) "hello world" true
      ∈ events_of_run ["--input"; "hello.txt"; "--output"; "docs"]
          Demo.demo_world.
Proof.
  apply (X7_unwritable_output_found_after_inference (H := Demo.demo)
           ["--input"; "hello.txt"; "--output"; "docs"]
           (mkNamespace "hello.txt" "docs" default_model)
           Demo.demo_world "hello world"
           (PyList [PyFloat 0; PyFloat 1; PyFloat 0])
           demo_installed eq_refl).
  - vm_compute. reflexivity.
  - vm_compute. reflexivity.
  - left. vm_compute. reflexivity.
Defined.

Lemma X8_witness :
  ∃ w' r partial,
    run ["--input"; "hello.txt"; "--output"; "out.json";
         "--model"; "demo/float32"] Demo.demo_world = (1, w')
    ∧ fs w' !! "out.json"
      = Some (RegularFile r true
                (json_object_opening +:+ partial))
    ∧ stderr w'
      = stderr Demo.demo_world
        ++ ["Error: Object of type float32 is not JSON serializable"]
    ∧ EvWrite (H := Demo.demo) "out.json" "}"
      ∉ events_of_run ["--input"; "hello.txt"; "--output"; "out.json";
                       "--model"; "demo/float32"] Demo.demo_world.
Proof.
  apply (X8_numpy_scalars_leave_partial_output (H := Demo.demo)
           ["--input"; "hello.txt"; "--output"; "out.json";
            "--model"; "demo/float32"]
           (mkNamespace "hello.txt" "out.json" "demo/float32")
           Demo.demo_world "hello world" "demo/float32"
           [NpFloat32 0; NpFloat32 1; NpFloat32 0]
           demo_installed eq_refl).
  - vm_compute. reflexivity.
  - reflexivity.
  - left. reflexivity.
  - reflexivity.
  - right. exists true, "stale content". vm_compute. reflexivity.
Defined.


Section Footprint.
Context `{Platform}.


(** X11.  The file calls of a run are on two paths only: every open for
    reading and every read is on the --input path, every open for writing
    and every write on the --output path. *)
Theorem X11_file_calls_on_input_and_output_only (argv : list string)
    (args : Namespace) (w : World) :
  parse argv = Parsed args →
  Forall (on_input_or_output args) (events_of_run argv w).
Proof.
  intros Hparse.
  destruct (decide (installed w)) as [Hinst|Hmiss]; cycle 1.
  { destruct (run_not_installed w Hmiss) as (evs & Hevs & Hrun).
    unfold events_of_run. rewrite (Hrun argv). simpl.
    rewrite drop_app_length.
    eapply Forall_impl; [exact Hevs|]. by intros []. }
  rewrite (events_of_run_installed argv w Hinst). unfold run_log.
  rewrite Hparse. rewrite !Forall_app. split; [repeat constructor|]. split.
  { unfold read_calls.
    destruct (fs w !! input args) as [[[|] ? ?| |?]|]; by repeat constructor. }
  destruct (read_input (input args) (fs w)) as [e|text]; [constructor|].
  rewrite Forall_app. split.
  { unfold model_calls.
    destruct (SentenceTransformer (model args)); by repeat constructor. }
  destruct (embedding_of text (model args)) as [e|embedding]; [constructor|].
  destruct (open_output_error (output args) (fs w)).
  - by repeat constructor.
  - unfold write_calls. constructor; [done|].
    apply Forall_fmap. by apply Forall_true.
Qed.



End Footprint.


Lemma X11_witness :
  Forall (on_input_or_output (H := Demo.demo)
            (mkNamespace "hello.txt" "out.json" default_model))
    (events_of_run ["--input"; "hello.txt"; "--output"; "out.json"]
       Demo.demo_world).
Proof.
  apply (X11_file_calls_on_input_and_output_only (H := Demo.demo)
           ["--input"; "hello.txt"; "--output"; "out.json"]
           (mkNamespace "hello.txt" "out.json" default_model)
           Demo.demo_world eq_refl).
Defined.

